(** * OpenBCI_Radios: the packet protocol of the RFduinoGZLL Host and Device

    A shallow embedding of [OpenBCI_Radios.cpp]: the byteId / check sum codec,
    the packet buffers, the serial ingestion pass with the stream packet
    detector, the Host's flush of stream packets and the radio receive
    delegate [RFduinoGZLL_onReceive].

    Conventions of the embedding.
    - [char] is the unsigned 8 bit type of the ARM tool chain the RFduino is
      built with ([byteIdGetIsStream] compares a [char] with [0x7F], which only
      makes sense for an unsigned [char]); a [char] is a [Z] in [0, 256).
    - [int] and [unsigned int] are 32 bit; where the code can wrap, the wrap
      is written out with [int32] and [uint32].
    - a [char *] argument is the list of the bytes from the pointer to the end
      of the array it points into, [None] for [NULL]; reading or writing
      outside an array is a fault of the run, not a value. *)

From Stdlib Require Import ZArith Lia String.
From stdpp Require Import base tactics option list.

Open Scope Z_scope.

(** ** Machine integers *)

Definition uint32 (x : Z) : Z := x mod 2 ^ 32.
Definition int32 (x : Z) : Z := (x + 2 ^ 31) mod 2 ^ 32 - 2 ^ 31.
Definition to_char (x : Z) : Z := x mod 256.

(** [a[i]] for a C index [i]. *)
Definition read {A : Type} (a : list A) (i : Z) : option A :=
  if i <? 0 then None else a !! Z.to_nat i.

(** [a[i] = x]; [None] when [i] is outside the array. *)
Definition write {A : Type} (a : list A) (i : Z) (x : A) : option (list A) :=
  if (0 <=? i) && (i <? Z.of_nat (length a)) then Some (<[Z.to_nat i := x]> a)
  else None.

(** ** Constants of [OpenBCI_Radios.h]

    The header is not part of the sources at hand.  The three constants below
    are fixed by the wire format; the others are fields of [Header]. *)

(** Modelled from the spec: the header constant [OPENBCI_MAX_PACKET_SIZE_BYTES];
    a radio packet is a fixed-size byte array of capacity 32. *)
Definition OPENBCI_MAX_PACKET_SIZE_BYTES : Z := 32.

(** Modelled from the spec: the header constant
    [OPENBCI_MAX_DATA_BYTES_IN_PACKET]; byte 0 of a packet is the byteId and
    the payload length is at most 31. *)
Definition OPENBCI_MAX_DATA_BYTES_IN_PACKET : Z := 31.

(** Modelled from the spec: the header constant [OPENBCI_STREAM_PACKET_HEAD];
    a stream frame starts with the character 'A', which is also the literal
    [processCharForStreamPacket] tests for in its idle state. *)
Definition OPENBCI_STREAM_PACKET_HEAD : Z := 65.

Class Header : Type := {
  OPENBCI_MAX_NUMBER_OF_BUFFERS : Z;
  OPENBCI_BUFFER_LENGTH : Z;
  OPENBCI_MAX_SERIAL_TIMEOUT_MS : Z;
  OPENBCI_SERIAL_TIMEOUT_uS : Z;
  OPENBCI_STREAM_BYTE_START : Z;
  OPENBCI_HOST_TIME_SYNC : Z;
  OPENBCI_HOST_TIME_SYNC_ACK : Z;
  OPENBCI_HOST_CHANNEL_QUERY : Z;
  OPENBCI_HOST_CHANNEL_CHANGE : Z;
  OPENBCI_HOST_CHANNEL_CHANGE_SUCCESS : Z;
  OPENBCI_HOST_CHANNEL_CHANGE_INVALID : Z;
  ORPM_INVALID_CODE_RECEIVED : Z;
  ORPM_PACKET_BAD_CHECK_SUM : Z;
  ORPM_PACKET_MISSED : Z;
  ORPM_DEVICE_SERIAL_OVERFLOW : Z;
  ORPM_CHANGE_CHANNEL_HOST_REQUEST : Z;
  ORPM_CHANGE_CHANNEL_DEVICE_READY : Z;
  RFDUINOGZLL_CHANNEL_LIMIT_UPPER : Z
}.

(** ** The byteId and check sum codec *)

(** The [do { sum = sum + data[count]; count++; } while (--length);] loop of
    [checkSumMake]: the body runs before the count is tested, [data] is what
    is left of the array from [data + count] on. *)
Fixpoint checkSumMake_loop (data : list Z) (sum length : Z) : option Z :=
  match data with
  | [] => None
  | d :: rest =>
      let sum := uint32 (sum + d) in
      let length := int32 (length - 1) in
      if length =? 0 then Some sum else checkSumMake_loop rest sum length
  end.

Definition checkSumMake (data : option (list Z)) (length : Z) : option Z :=
  match data with
  | None => Some 0
  | Some bytes =>
      match checkSumMake_loop bytes 0 length with
      | Some sum =>
          let sum := uint32 (- sum) in
          Some (to_char (Z.land sum 0x07))
      | None => None
      end
  end.

Definition byteIdGetCheckSum (byteId : Z) : Z := to_char (Z.land byteId 0x07).

Definition byteIdGetIsStream (byteId : Z) : bool := 0x7F <? byteId.

Definition byteIdGetPacketNumber (byteId : Z) : Z :=
  int32 (Z.shiftr (Z.land byteId 0x78) 3).

Definition byteIdGetStreamPacketType (byteId : Z) : Z :=
  to_char (Z.shiftr (Z.land byteId 0x78) 3).

Definition byteIdMake (isStreamPacket : bool) (packetNumber : Z)
    (data : option (list Z)) (length : Z) : option Z :=
  let output := 0x00 in
  let output := if isStreamPacket then to_char (Z.lor output 0x80) else output in
  let output := to_char (Z.lor output (Z.shiftl (Z.land packetNumber 0x0F) 3)) in
  match checkSumMake data length with
  | Some checkSum => Some (to_char (Z.lor output checkSum))
  | None => None
  end.

Definition checkSumsAreEqual (data : list Z) (len : Z) : option bool :=
  match data with
  | [] => None
  | byteId :: payload =>
      let expectedCheckSum := byteIdGetCheckSum byteId in
      match checkSumMake (Some payload) (len - 1) with
      | Some calculatedCheckSum => Some (expectedCheckSum =? calculatedCheckSum)
      | None => None
      end
  end.

Definition outputGetStopByteFromByteId (byteId : Z) : Z :=
  to_char (Z.lor (byteIdGetStreamPacketType byteId) 0xC0).

(** ** The state of a radio and of its board *)

(** [struct PacketBuffer]: one radio packet, byte 0 is kept for the byteId. *)
Record PacketBuffer : Type := {
  data : list Z;
  positionRead : Z;
  positionWrite : Z
}.

(** [struct Buffer]: the array of packets and the two counters. *)
Record Buffer : Type := {
  packetBuffer : list PacketBuffer;
  numberOfPacketsToSend : Z;
  numberOfPacketsSent : Z
}.

(** [struct StreamPacketBuffer]; [streamData] is its [data] array. *)
Record StreamPacketBuffer : Type := {
  gotHead : bool;
  readyForLaunch : bool;
  typeByte : Z;
  streamData : list Z;
  bytesIn : Z
}.

(** What goes out on the serial port. *)
Inductive SerialEvent : Type :=
| SerialWrite (byte : Z)
| SerialPrint (text : string)
| SerialPrintInt (n : Z)
| SerialPrintChar (c : Z)
| SerialPrintln.

(** What goes out on the radio: [RFduinoGZLL.sendToHost] and
    [RFduinoGZLL.sendToDevice] with the bytes handed over. *)
Inductive RadioEvent : Type :=
| SendToHost (bytes : list Z)
| SendToDevice (device : Z) (bytes : list Z).

(** The members of [OpenBCI_Radios_Class] the protocol uses.  A pointer into
    a packet array is the index of the packet, [None] for [NULL]. *)
Record Radio : Type := {
  isHost : bool;
  isDevice : bool;
  verbosePrintouts : bool;
  debugMode : bool;
  radioChannel : Z;
  previousRadioChannel : Z;
  bufferSerial : Buffer;
  currentPacketBufferSerial : option nat;
  bufferStreamPackets : Buffer;
  currentPacketBufferStreamPacket : option nat;
  streamPacketBuffer : StreamPacketBuffer;
  bufferRadio : list Z;
  bufferPacketsReceived : Z;
  bufferPacketsToReceive : Z;
  bufferPositionReadRadio : Z;
  bufferPositionWriteRadio : Z;
  isTheDevicesRadioBufferFilledWithAllThePacketsFromTheHost : bool;
  isTheHostsRadioBufferFilledWithAllThePacketsFromTheDevice : bool;
  previousPacketNumber : Z;
  isWaitingForNewChannelNumber : bool;
  isWaitingForNewChannelNumberConfirmation : bool;
  lastTimeHostHeardFromDevice : Z;
  lastTimeNewSerialDataWasAvailable : Z;
  timeOfLastPoll : Z;
  timeWeGot0xFXFromPic : Z
}.

(** The board around the class: the serial port, the radio, the flash word
    that keeps the channel with the answers the flash driver will give, and
    the two clocks, which stand still while one operation runs. *)
Record Board : Type := {
  serialIn : list Z;
  serialOut : list SerialEvent;
  radioOut : list RadioEvent;
  gzllChannel : Z;
  flashWord : Z;
  flashPageEraseRc : Z;
  flashWriteRc : Z;
  millis : Z;
  micros : Z
}.

Record World : Type := {
  radio : Radio;
  board : Board
}.

(** *** Field updates *)

Definition set_data (v : list Z) (x : PacketBuffer) : PacketBuffer :=
  Build_PacketBuffer v (positionRead x) (positionWrite x).
Definition set_positionRead (v : Z) (x : PacketBuffer) : PacketBuffer :=
  Build_PacketBuffer (data x) v (positionWrite x).
Definition set_positionWrite (v : Z) (x : PacketBuffer) : PacketBuffer :=
  Build_PacketBuffer (data x) (positionRead x) v.

Definition set_packetBuffer (v : list PacketBuffer) (x : Buffer) : Buffer :=
  Build_Buffer v (numberOfPacketsToSend x) (numberOfPacketsSent x).
Definition set_numberOfPacketsToSend (v : Z) (x : Buffer) : Buffer :=
  Build_Buffer (packetBuffer x) v (numberOfPacketsSent x).
Definition set_numberOfPacketsSent (v : Z) (x : Buffer) : Buffer :=
  Build_Buffer (packetBuffer x) (numberOfPacketsToSend x) v.

Definition set_gotHead (v : bool) (x : StreamPacketBuffer) : StreamPacketBuffer :=
  Build_StreamPacketBuffer v (readyForLaunch x) (typeByte x) (streamData x) (bytesIn x).
Definition set_readyForLaunch (v : bool) (x : StreamPacketBuffer) : StreamPacketBuffer :=
  Build_StreamPacketBuffer (gotHead x) v (typeByte x) (streamData x) (bytesIn x).
Definition set_typeByte (v : Z) (x : StreamPacketBuffer) : StreamPacketBuffer :=
  Build_StreamPacketBuffer (gotHead x) (readyForLaunch x) v (streamData x) (bytesIn x).
Definition set_streamData (v : list Z) (x : StreamPacketBuffer) : StreamPacketBuffer :=
  Build_StreamPacketBuffer (gotHead x) (readyForLaunch x) (typeByte x) v (bytesIn x).
Definition set_bytesIn (v : Z) (x : StreamPacketBuffer) : StreamPacketBuffer :=
  Build_StreamPacketBuffer (gotHead x) (readyForLaunch x) (typeByte x) (streamData x) v.

Definition set_radioChannel (v : Z) (x : Radio) : Radio :=
  Build_Radio (isHost x) (isDevice x) (verbosePrintouts x) (debugMode x) v
    (previousRadioChannel x) (bufferSerial x) (currentPacketBufferSerial x)
    (bufferStreamPackets x) (currentPacketBufferStreamPacket x) (streamPacketBuffer x)
    (bufferRadio x) (bufferPacketsReceived x) (bufferPacketsToReceive x)
    (bufferPositionReadRadio x) (bufferPositionWriteRadio x)
    (isTheDevicesRadioBufferFilledWithAllThePacketsFromTheHost x)
    (isTheHostsRadioBufferFilledWithAllThePacketsFromTheDevice x) (previousPacketNumber x)
    (isWaitingForNewChannelNumber x) (isWaitingForNewChannelNumberConfirmation x)
    (lastTimeHostHeardFromDevice x) (lastTimeNewSerialDataWasAvailable x) (timeOfLastPoll x)
    (timeWeGot0xFXFromPic x).
Definition set_previousRadioChannel (v : Z) (x : Radio) : Radio :=
  Build_Radio (isHost x) (isDevice x) (verbosePrintouts x) (debugMode x) (radioChannel x) v
    (bufferSerial x) (currentPacketBufferSerial x) (bufferStreamPackets x)
    (currentPacketBufferStreamPacket x) (streamPacketBuffer x) (bufferRadio x)
    (bufferPacketsReceived x) (bufferPacketsToReceive x) (bufferPositionReadRadio x)
    (bufferPositionWriteRadio x) (isTheDevicesRadioBufferFilledWithAllThePacketsFromTheHost
    x) (isTheHostsRadioBufferFilledWithAllThePacketsFromTheDevice x) (previousPacketNumber
    x) (isWaitingForNewChannelNumber x) (isWaitingForNewChannelNumberConfirmation x)
    (lastTimeHostHeardFromDevice x) (lastTimeNewSerialDataWasAvailable x) (timeOfLastPoll x)
    (timeWeGot0xFXFromPic x).
Definition set_bufferSerial (v : Buffer) (x : Radio) : Radio :=
  Build_Radio (isHost x) (isDevice x) (verbosePrintouts x) (debugMode x) (radioChannel x)
    (previousRadioChannel x) v (currentPacketBufferSerial x) (bufferStreamPackets x)
    (currentPacketBufferStreamPacket x) (streamPacketBuffer x) (bufferRadio x)
    (bufferPacketsReceived x) (bufferPacketsToReceive x) (bufferPositionReadRadio x)
    (bufferPositionWriteRadio x) (isTheDevicesRadioBufferFilledWithAllThePacketsFromTheHost
    x) (isTheHostsRadioBufferFilledWithAllThePacketsFromTheDevice x) (previousPacketNumber
    x) (isWaitingForNewChannelNumber x) (isWaitingForNewChannelNumberConfirmation x)
    (lastTimeHostHeardFromDevice x) (lastTimeNewSerialDataWasAvailable x) (timeOfLastPoll x)
    (timeWeGot0xFXFromPic x).
Definition set_currentPacketBufferSerial (v : option nat) (x : Radio) : Radio :=
  Build_Radio (isHost x) (isDevice x) (verbosePrintouts x) (debugMode x) (radioChannel x)
    (previousRadioChannel x) (bufferSerial x) v (bufferStreamPackets x)
    (currentPacketBufferStreamPacket x) (streamPacketBuffer x) (bufferRadio x)
    (bufferPacketsReceived x) (bufferPacketsToReceive x) (bufferPositionReadRadio x)
    (bufferPositionWriteRadio x) (isTheDevicesRadioBufferFilledWithAllThePacketsFromTheHost
    x) (isTheHostsRadioBufferFilledWithAllThePacketsFromTheDevice x) (previousPacketNumber
    x) (isWaitingForNewChannelNumber x) (isWaitingForNewChannelNumberConfirmation x)
    (lastTimeHostHeardFromDevice x) (lastTimeNewSerialDataWasAvailable x) (timeOfLastPoll x)
    (timeWeGot0xFXFromPic x).
Definition set_bufferStreamPackets (v : Buffer) (x : Radio) : Radio :=
  Build_Radio (isHost x) (isDevice x) (verbosePrintouts x) (debugMode x) (radioChannel x)
    (previousRadioChannel x) (bufferSerial x) (currentPacketBufferSerial x) v
    (currentPacketBufferStreamPacket x) (streamPacketBuffer x) (bufferRadio x)
    (bufferPacketsReceived x) (bufferPacketsToReceive x) (bufferPositionReadRadio x)
    (bufferPositionWriteRadio x) (isTheDevicesRadioBufferFilledWithAllThePacketsFromTheHost
    x) (isTheHostsRadioBufferFilledWithAllThePacketsFromTheDevice x) (previousPacketNumber
    x) (isWaitingForNewChannelNumber x) (isWaitingForNewChannelNumberConfirmation x)
    (lastTimeHostHeardFromDevice x) (lastTimeNewSerialDataWasAvailable x) (timeOfLastPoll x)
    (timeWeGot0xFXFromPic x).
Definition set_currentPacketBufferStreamPacket (v : option nat) (x : Radio) : Radio :=
  Build_Radio (isHost x) (isDevice x) (verbosePrintouts x) (debugMode x) (radioChannel x)
    (previousRadioChannel x) (bufferSerial x) (currentPacketBufferSerial x)
    (bufferStreamPackets x) v (streamPacketBuffer x) (bufferRadio x) (bufferPacketsReceived
    x) (bufferPacketsToReceive x) (bufferPositionReadRadio x) (bufferPositionWriteRadio x)
    (isTheDevicesRadioBufferFilledWithAllThePacketsFromTheHost x)
    (isTheHostsRadioBufferFilledWithAllThePacketsFromTheDevice x) (previousPacketNumber x)
    (isWaitingForNewChannelNumber x) (isWaitingForNewChannelNumberConfirmation x)
    (lastTimeHostHeardFromDevice x) (lastTimeNewSerialDataWasAvailable x) (timeOfLastPoll x)
    (timeWeGot0xFXFromPic x).
Definition set_streamPacketBuffer (v : StreamPacketBuffer) (x : Radio) : Radio :=
  Build_Radio (isHost x) (isDevice x) (verbosePrintouts x) (debugMode x) (radioChannel x)
    (previousRadioChannel x) (bufferSerial x) (currentPacketBufferSerial x)
    (bufferStreamPackets x) (currentPacketBufferStreamPacket x) v (bufferRadio x)
    (bufferPacketsReceived x) (bufferPacketsToReceive x) (bufferPositionReadRadio x)
    (bufferPositionWriteRadio x) (isTheDevicesRadioBufferFilledWithAllThePacketsFromTheHost
    x) (isTheHostsRadioBufferFilledWithAllThePacketsFromTheDevice x) (previousPacketNumber
    x) (isWaitingForNewChannelNumber x) (isWaitingForNewChannelNumberConfirmation x)
    (lastTimeHostHeardFromDevice x) (lastTimeNewSerialDataWasAvailable x) (timeOfLastPoll x)
    (timeWeGot0xFXFromPic x).
Definition set_bufferRadio (v : list Z) (x : Radio) : Radio :=
  Build_Radio (isHost x) (isDevice x) (verbosePrintouts x) (debugMode x) (radioChannel x)
    (previousRadioChannel x) (bufferSerial x) (currentPacketBufferSerial x)
    (bufferStreamPackets x) (currentPacketBufferStreamPacket x) (streamPacketBuffer x) v
    (bufferPacketsReceived x) (bufferPacketsToReceive x) (bufferPositionReadRadio x)
    (bufferPositionWriteRadio x) (isTheDevicesRadioBufferFilledWithAllThePacketsFromTheHost
    x) (isTheHostsRadioBufferFilledWithAllThePacketsFromTheDevice x) (previousPacketNumber
    x) (isWaitingForNewChannelNumber x) (isWaitingForNewChannelNumberConfirmation x)
    (lastTimeHostHeardFromDevice x) (lastTimeNewSerialDataWasAvailable x) (timeOfLastPoll x)
    (timeWeGot0xFXFromPic x).
Definition set_bufferPacketsReceived (v : Z) (x : Radio) : Radio :=
  Build_Radio (isHost x) (isDevice x) (verbosePrintouts x) (debugMode x) (radioChannel x)
    (previousRadioChannel x) (bufferSerial x) (currentPacketBufferSerial x)
    (bufferStreamPackets x) (currentPacketBufferStreamPacket x) (streamPacketBuffer x)
    (bufferRadio x) v (bufferPacketsToReceive x) (bufferPositionReadRadio x)
    (bufferPositionWriteRadio x) (isTheDevicesRadioBufferFilledWithAllThePacketsFromTheHost
    x) (isTheHostsRadioBufferFilledWithAllThePacketsFromTheDevice x) (previousPacketNumber
    x) (isWaitingForNewChannelNumber x) (isWaitingForNewChannelNumberConfirmation x)
    (lastTimeHostHeardFromDevice x) (lastTimeNewSerialDataWasAvailable x) (timeOfLastPoll x)
    (timeWeGot0xFXFromPic x).
Definition set_bufferPacketsToReceive (v : Z) (x : Radio) : Radio :=
  Build_Radio (isHost x) (isDevice x) (verbosePrintouts x) (debugMode x) (radioChannel x)
    (previousRadioChannel x) (bufferSerial x) (currentPacketBufferSerial x)
    (bufferStreamPackets x) (currentPacketBufferStreamPacket x) (streamPacketBuffer x)
    (bufferRadio x) (bufferPacketsReceived x) v (bufferPositionReadRadio x)
    (bufferPositionWriteRadio x) (isTheDevicesRadioBufferFilledWithAllThePacketsFromTheHost
    x) (isTheHostsRadioBufferFilledWithAllThePacketsFromTheDevice x) (previousPacketNumber
    x) (isWaitingForNewChannelNumber x) (isWaitingForNewChannelNumberConfirmation x)
    (lastTimeHostHeardFromDevice x) (lastTimeNewSerialDataWasAvailable x) (timeOfLastPoll x)
    (timeWeGot0xFXFromPic x).
Definition set_bufferPositionReadRadio (v : Z) (x : Radio) : Radio :=
  Build_Radio (isHost x) (isDevice x) (verbosePrintouts x) (debugMode x) (radioChannel x)
    (previousRadioChannel x) (bufferSerial x) (currentPacketBufferSerial x)
    (bufferStreamPackets x) (currentPacketBufferStreamPacket x) (streamPacketBuffer x)
    (bufferRadio x) (bufferPacketsReceived x) (bufferPacketsToReceive x) v
    (bufferPositionWriteRadio x) (isTheDevicesRadioBufferFilledWithAllThePacketsFromTheHost
    x) (isTheHostsRadioBufferFilledWithAllThePacketsFromTheDevice x) (previousPacketNumber
    x) (isWaitingForNewChannelNumber x) (isWaitingForNewChannelNumberConfirmation x)
    (lastTimeHostHeardFromDevice x) (lastTimeNewSerialDataWasAvailable x) (timeOfLastPoll x)
    (timeWeGot0xFXFromPic x).
Definition set_bufferPositionWriteRadio (v : Z) (x : Radio) : Radio :=
  Build_Radio (isHost x) (isDevice x) (verbosePrintouts x) (debugMode x) (radioChannel x)
    (previousRadioChannel x) (bufferSerial x) (currentPacketBufferSerial x)
    (bufferStreamPackets x) (currentPacketBufferStreamPacket x) (streamPacketBuffer x)
    (bufferRadio x) (bufferPacketsReceived x) (bufferPacketsToReceive x)
    (bufferPositionReadRadio x) v (isTheDevicesRadioBufferFilledWithAllThePacketsFromTheHost
    x) (isTheHostsRadioBufferFilledWithAllThePacketsFromTheDevice x) (previousPacketNumber
    x) (isWaitingForNewChannelNumber x) (isWaitingForNewChannelNumberConfirmation x)
    (lastTimeHostHeardFromDevice x) (lastTimeNewSerialDataWasAvailable x) (timeOfLastPoll x)
    (timeWeGot0xFXFromPic x).
Definition set_isTheDevicesRadioBufferFilledWithAllThePacketsFromTheHost (v : bool) (x : Radio) : Radio :=
  Build_Radio (isHost x) (isDevice x) (verbosePrintouts x) (debugMode x) (radioChannel x)
    (previousRadioChannel x) (bufferSerial x) (currentPacketBufferSerial x)
    (bufferStreamPackets x) (currentPacketBufferStreamPacket x) (streamPacketBuffer x)
    (bufferRadio x) (bufferPacketsReceived x) (bufferPacketsToReceive x)
    (bufferPositionReadRadio x) (bufferPositionWriteRadio x) v
    (isTheHostsRadioBufferFilledWithAllThePacketsFromTheDevice x) (previousPacketNumber x)
    (isWaitingForNewChannelNumber x) (isWaitingForNewChannelNumberConfirmation x)
    (lastTimeHostHeardFromDevice x) (lastTimeNewSerialDataWasAvailable x) (timeOfLastPoll x)
    (timeWeGot0xFXFromPic x).
Definition set_isTheHostsRadioBufferFilledWithAllThePacketsFromTheDevice (v : bool) (x : Radio) : Radio :=
  Build_Radio (isHost x) (isDevice x) (verbosePrintouts x) (debugMode x) (radioChannel x)
    (previousRadioChannel x) (bufferSerial x) (currentPacketBufferSerial x)
    (bufferStreamPackets x) (currentPacketBufferStreamPacket x) (streamPacketBuffer x)
    (bufferRadio x) (bufferPacketsReceived x) (bufferPacketsToReceive x)
    (bufferPositionReadRadio x) (bufferPositionWriteRadio x)
    (isTheDevicesRadioBufferFilledWithAllThePacketsFromTheHost x) v (previousPacketNumber x)
    (isWaitingForNewChannelNumber x) (isWaitingForNewChannelNumberConfirmation x)
    (lastTimeHostHeardFromDevice x) (lastTimeNewSerialDataWasAvailable x) (timeOfLastPoll x)
    (timeWeGot0xFXFromPic x).
Definition set_previousPacketNumber (v : Z) (x : Radio) : Radio :=
  Build_Radio (isHost x) (isDevice x) (verbosePrintouts x) (debugMode x) (radioChannel x)
    (previousRadioChannel x) (bufferSerial x) (currentPacketBufferSerial x)
    (bufferStreamPackets x) (currentPacketBufferStreamPacket x) (streamPacketBuffer x)
    (bufferRadio x) (bufferPacketsReceived x) (bufferPacketsToReceive x)
    (bufferPositionReadRadio x) (bufferPositionWriteRadio x)
    (isTheDevicesRadioBufferFilledWithAllThePacketsFromTheHost x)
    (isTheHostsRadioBufferFilledWithAllThePacketsFromTheDevice x) v
    (isWaitingForNewChannelNumber x) (isWaitingForNewChannelNumberConfirmation x)
    (lastTimeHostHeardFromDevice x) (lastTimeNewSerialDataWasAvailable x) (timeOfLastPoll x)
    (timeWeGot0xFXFromPic x).
Definition set_isWaitingForNewChannelNumber (v : bool) (x : Radio) : Radio :=
  Build_Radio (isHost x) (isDevice x) (verbosePrintouts x) (debugMode x) (radioChannel x)
    (previousRadioChannel x) (bufferSerial x) (currentPacketBufferSerial x)
    (bufferStreamPackets x) (currentPacketBufferStreamPacket x) (streamPacketBuffer x)
    (bufferRadio x) (bufferPacketsReceived x) (bufferPacketsToReceive x)
    (bufferPositionReadRadio x) (bufferPositionWriteRadio x)
    (isTheDevicesRadioBufferFilledWithAllThePacketsFromTheHost x)
    (isTheHostsRadioBufferFilledWithAllThePacketsFromTheDevice x) (previousPacketNumber x) v
    (isWaitingForNewChannelNumberConfirmation x) (lastTimeHostHeardFromDevice x)
    (lastTimeNewSerialDataWasAvailable x) (timeOfLastPoll x) (timeWeGot0xFXFromPic x).
Definition set_isWaitingForNewChannelNumberConfirmation (v : bool) (x : Radio) : Radio :=
  Build_Radio (isHost x) (isDevice x) (verbosePrintouts x) (debugMode x) (radioChannel x)
    (previousRadioChannel x) (bufferSerial x) (currentPacketBufferSerial x)
    (bufferStreamPackets x) (currentPacketBufferStreamPacket x) (streamPacketBuffer x)
    (bufferRadio x) (bufferPacketsReceived x) (bufferPacketsToReceive x)
    (bufferPositionReadRadio x) (bufferPositionWriteRadio x)
    (isTheDevicesRadioBufferFilledWithAllThePacketsFromTheHost x)
    (isTheHostsRadioBufferFilledWithAllThePacketsFromTheDevice x) (previousPacketNumber x)
    (isWaitingForNewChannelNumber x) v (lastTimeHostHeardFromDevice x)
    (lastTimeNewSerialDataWasAvailable x) (timeOfLastPoll x) (timeWeGot0xFXFromPic x).
Definition set_lastTimeHostHeardFromDevice (v : Z) (x : Radio) : Radio :=
  Build_Radio (isHost x) (isDevice x) (verbosePrintouts x) (debugMode x) (radioChannel x)
    (previousRadioChannel x) (bufferSerial x) (currentPacketBufferSerial x)
    (bufferStreamPackets x) (currentPacketBufferStreamPacket x) (streamPacketBuffer x)
    (bufferRadio x) (bufferPacketsReceived x) (bufferPacketsToReceive x)
    (bufferPositionReadRadio x) (bufferPositionWriteRadio x)
    (isTheDevicesRadioBufferFilledWithAllThePacketsFromTheHost x)
    (isTheHostsRadioBufferFilledWithAllThePacketsFromTheDevice x) (previousPacketNumber x)
    (isWaitingForNewChannelNumber x) (isWaitingForNewChannelNumberConfirmation x) v
    (lastTimeNewSerialDataWasAvailable x) (timeOfLastPoll x) (timeWeGot0xFXFromPic x).
Definition set_lastTimeNewSerialDataWasAvailable (v : Z) (x : Radio) : Radio :=
  Build_Radio (isHost x) (isDevice x) (verbosePrintouts x) (debugMode x) (radioChannel x)
    (previousRadioChannel x) (bufferSerial x) (currentPacketBufferSerial x)
    (bufferStreamPackets x) (currentPacketBufferStreamPacket x) (streamPacketBuffer x)
    (bufferRadio x) (bufferPacketsReceived x) (bufferPacketsToReceive x)
    (bufferPositionReadRadio x) (bufferPositionWriteRadio x)
    (isTheDevicesRadioBufferFilledWithAllThePacketsFromTheHost x)
    (isTheHostsRadioBufferFilledWithAllThePacketsFromTheDevice x) (previousPacketNumber x)
    (isWaitingForNewChannelNumber x) (isWaitingForNewChannelNumberConfirmation x)
    (lastTimeHostHeardFromDevice x) v (timeOfLastPoll x) (timeWeGot0xFXFromPic x).
Definition set_timeOfLastPoll (v : Z) (x : Radio) : Radio :=
  Build_Radio (isHost x) (isDevice x) (verbosePrintouts x) (debugMode x) (radioChannel x)
    (previousRadioChannel x) (bufferSerial x) (currentPacketBufferSerial x)
    (bufferStreamPackets x) (currentPacketBufferStreamPacket x) (streamPacketBuffer x)
    (bufferRadio x) (bufferPacketsReceived x) (bufferPacketsToReceive x)
    (bufferPositionReadRadio x) (bufferPositionWriteRadio x)
    (isTheDevicesRadioBufferFilledWithAllThePacketsFromTheHost x)
    (isTheHostsRadioBufferFilledWithAllThePacketsFromTheDevice x) (previousPacketNumber x)
    (isWaitingForNewChannelNumber x) (isWaitingForNewChannelNumberConfirmation x)
    (lastTimeHostHeardFromDevice x) (lastTimeNewSerialDataWasAvailable x) v
    (timeWeGot0xFXFromPic x).
Definition set_timeWeGot0xFXFromPic (v : Z) (x : Radio) : Radio :=
  Build_Radio (isHost x) (isDevice x) (verbosePrintouts x) (debugMode x) (radioChannel x)
    (previousRadioChannel x) (bufferSerial x) (currentPacketBufferSerial x)
    (bufferStreamPackets x) (currentPacketBufferStreamPacket x) (streamPacketBuffer x)
    (bufferRadio x) (bufferPacketsReceived x) (bufferPacketsToReceive x)
    (bufferPositionReadRadio x) (bufferPositionWriteRadio x)
    (isTheDevicesRadioBufferFilledWithAllThePacketsFromTheHost x)
    (isTheHostsRadioBufferFilledWithAllThePacketsFromTheDevice x) (previousPacketNumber x)
    (isWaitingForNewChannelNumber x) (isWaitingForNewChannelNumberConfirmation x)
    (lastTimeHostHeardFromDevice x) (lastTimeNewSerialDataWasAvailable x) (timeOfLastPoll x)
    v.

Definition set_serialIn (v : list Z) (x : Board) : Board :=
  Build_Board v (serialOut x) (radioOut x) (gzllChannel x) (flashWord x) (flashPageEraseRc
    x) (flashWriteRc x) (millis x) (micros x).
Definition set_serialOut (v : list SerialEvent) (x : Board) : Board :=
  Build_Board (serialIn x) v (radioOut x) (gzllChannel x) (flashWord x) (flashPageEraseRc x)
    (flashWriteRc x) (millis x) (micros x).
Definition set_radioOut (v : list RadioEvent) (x : Board) : Board :=
  Build_Board (serialIn x) (serialOut x) v (gzllChannel x) (flashWord x) (flashPageEraseRc
    x) (flashWriteRc x) (millis x) (micros x).
Definition set_gzllChannel (v : Z) (x : Board) : Board :=
  Build_Board (serialIn x) (serialOut x) (radioOut x) v (flashWord x) (flashPageEraseRc x)
    (flashWriteRc x) (millis x) (micros x).
Definition set_flashWord (v : Z) (x : Board) : Board :=
  Build_Board (serialIn x) (serialOut x) (radioOut x) (gzllChannel x) v (flashPageEraseRc x)
    (flashWriteRc x) (millis x) (micros x).
Definition set_millis (v : Z) (x : Board) : Board :=
  Build_Board (serialIn x) (serialOut x) (radioOut x) (gzllChannel x) (flashWord x)
    (flashPageEraseRc x) (flashWriteRc x) v (micros x).
Definition set_micros (v : Z) (x : Board) : Board :=
  Build_Board (serialIn x) (serialOut x) (radioOut x) (gzllChannel x) (flashWord x)
    (flashPageEraseRc x) (flashWriteRc x) (millis x) v.

Definition set_radio (v : Radio) (x : World) : World :=
  Build_World v (board x).
Definition set_board (v : Board) (x : World) : World :=
  Build_World (radio x) v.

(** ** Runs of the code

    A member function runs on the world and either returns, or faults at the
    first access outside an array or through a null pointer; a fault keeps the
    world as it was when the access was tried. *)

Inductive outcome (A : Type) : Type :=
| Done (a : A) (w : World)
| Fault (w : World).

Arguments Done {A} a w.
Arguments Fault {A} w.

Definition M (A : Type) : Type := World -> outcome A.

Definition ret {A : Type} (a : A) : M A := fun w => Done a w.

Definition bind {A B : Type} (m : M A) (k : A -> M B) : M B :=
  fun w => match m w with
           | Done a w' => k a w'
           | Fault w' => Fault w'
           end.

Definition fault {A : Type} : M A := fun w => Fault w.

Declare Scope run_scope.
Delimit Scope run_scope with run.
Bind Scope run_scope with M.
Notation "x <- m ;; k" := (bind m (fun x => k))
  (at level 100, m at next level, k at level 200, right associativity,
   only parsing) : run_scope.
Notation "m ;; k" := (bind m (fun _ => k))
  (at level 100, k at level 200, right associativity, only parsing) : run_scope.
Open Scope run_scope.

(** An access that must be inside its array. *)
Definition access {A : Type} (o : option A) : M A :=
  match o with
  | Some a => ret a
  | None => fault
  end.

Definition getRadio {A : Type} (f : Radio -> A) : M A :=
  fun w => Done (f (radio w)) w.

Definition setRadio (f : Radio -> Radio) : M unit :=
  fun w => Done tt (set_radio (f (radio w)) w).

Definition getBoard {A : Type} (f : Board -> A) : M A :=
  fun w => Done (f (board w)) w.

Definition setBoard (f : Board -> Board) : M unit :=
  fun w => Done tt (set_board (f (board w)) w).

Definition when (b : bool) (m : M unit) : M unit := if b then m else ret tt.

(** [for (int i = from; i < to; i++) body]. *)
Fixpoint for_loop (n : nat) (i : Z) (body : Z -> M unit) : M unit :=
  match n with
  | O => ret tt
  | S n' => body i ;; for_loop n' (i + 1) body
  end.

Definition for_ (from to : Z) (body : Z -> M unit) : M unit :=
  for_loop (Z.to_nat (to - from)) from body.

(** The same loop over a value that is passed by pointer. *)
Fixpoint for_each {S : Type} (n : nat) (i : Z) (body : Z -> S -> option S)
    (s : S) : option S :=
  match n with
  | O => Some s
  | S n' => match body i s with
            | Some s' => for_each n' (i + 1) body s'
            | None => None
            end
  end.

(** A pointer [a + k] into the array [a]. *)
Definition offset {A : Type} (a : list A) (k : Z) : option (list A) :=
  if (0 <=? k) && (k <=? Z.of_nat (length a)) then Some (drop (Z.to_nat k) a)
  else None.

(** The first [len] bytes of a buffer handed to the radio. *)
Definition bytes_of (a : list Z) (len : Z) : option (list Z) :=
  if (0 <=? len) && (len <=? Z.of_nat (length a)) then Some (take (Z.to_nat len) a)
  else None.

(** *** The serial port, the radio and the flash *)

Definition Serial_available : M Z :=
  getBoard (fun b => Z.of_nat (length (serialIn b))).

Definition Serial_read : M Z :=
  input <- getBoard serialIn ;;
  match input with
  | [] => ret (-1)
  | c :: rest => setBoard (set_serialIn rest) ;; ret c
  end.

Definition Serial_out (e : SerialEvent) : M unit :=
  setBoard (fun b => set_serialOut (serialOut b ++ [e]) b).

Definition Serial_write (byte : Z) : M unit := Serial_out (SerialWrite (to_char byte)).
Definition Serial_print (text : string) : M unit := Serial_out (SerialPrint text).
Definition Serial_printInt (n : Z) : M unit := Serial_out (SerialPrintInt n).
Definition Serial_printChar (c : Z) : M unit := Serial_out (SerialPrintChar c).
Definition Serial_println (text : string) : M unit :=
  Serial_print text ;; Serial_out SerialPrintln.
Definition Serial_printlnInt (n : Z) : M unit :=
  Serial_printInt n ;; Serial_out SerialPrintln.

Definition Radio_out (e : RadioEvent) : M unit :=
  setBoard (fun b => set_radioOut (radioOut b ++ [e]) b).

(** [RFduinoGZLL.sendToHost(data, len)]; [None] is [sendToHost(NULL, 0)]. *)
Definition sendToHost (bytes : option (list Z)) (len : Z) : M unit :=
  match bytes with
  | None => Radio_out (SendToHost [])
  | Some a => sent <- access (bytes_of a len) ;; Radio_out (SendToHost sent)
  end.

Definition sendToDevice (device : Z) (bytes : list Z) (len : Z) : M unit :=
  sent <- access (bytes_of bytes len) ;; Radio_out (SendToDevice device sent).

(** [flashPageErase] and [flashWrite] answer with the codes the board holds;
    code 0 is success and changes the flash word. *)
Definition flashPageErase : M Z :=
  rc <- getBoard flashPageEraseRc ;;
  when (rc =? 0) (setBoard (set_flashWord 0xFFFFFFFF)) ;;
  ret rc.

Definition flashWrite (value : Z) : M Z :=
  rc <- getBoard flashWriteRc ;;
  when (rc =? 0) (setBoard (set_flashWord (uint32 value))) ;;
  ret rc.

(** ** The member functions *)

Section Protocol.

Context {header : Header}.

Definition getChannelNumber : M Z := getBoard flashWord.

Definition pollRefresh : M unit :=
  now <- getBoard millis ;; setRadio (set_timeOfLastPoll now).

Definition pollHost : M unit :=
  sendToHost None 0 ;; pollRefresh.

Definition setChannelNumber (channelNumber : Z) : M bool :=
  let channelNumber :=
    if RFDUINOGZLL_CHANNEL_LIMIT_UPPER <? channelNumber
    then RFDUINOGZLL_CHANNEL_LIMIT_UPPER else channelNumber in
  host <- getRadio isHost ;;
  rc <- flashPageErase ;;
  if rc =? 1 then
    when host (Serial_println "Error - the flash page is reserved$$$") ;; ret false
  else if rc =? 2 then
    when host (Serial_println "Error - the flash page is used by the sketch$$$") ;;
    ret false
  else
    rc <- flashWrite channelNumber ;;
    if rc =? 0 then Serial_println "Channel Number Set$$$" ;; ret true
    else if rc =? 1 then
      when host (Serial_println "Error - the flash page is reserved$$$") ;; ret false
    else if rc =? 2 then
      when host (Serial_println "Error - the flash page is used by the sketch$$$") ;;
      ret false
    else fault.

(** *** Cleaning the buffers *)

Definition bufferCleanChar (buffer : list Z) (bufferLength : Z) : option (list Z) :=
  for_each (Z.to_nat bufferLength) 0 (fun i b => write b i 0) buffer.

Definition bufferCleanPacketBuffer (packetBuffer : list PacketBuffer)
    (numberOfPackets : Z) : option (list PacketBuffer) :=
  for_each (Z.to_nat numberOfPackets) 0
    (fun i a => match read a i with
                | Some p => write a i (set_positionWrite 1 (set_positionRead 0 p))
                | None => None
                end) packetBuffer.

Definition bufferCleanCompletePacketBuffer (packetBuffer : list PacketBuffer)
    (numberOfPackets : Z) : option (list PacketBuffer) :=
  for_each (Z.to_nat numberOfPackets) 0
    (fun i a => match read a i with
                | Some p => write a i (set_positionWrite 0 (set_positionRead 0 p))
                | None => None
                end) packetBuffer.

Definition bufferCleanBuffer (buffer : Buffer) (numberOfPacketsToClean : Z)
    : option Buffer :=
  match bufferCleanPacketBuffer (packetBuffer buffer) numberOfPacketsToClean with
  | Some a => Some (set_numberOfPacketsSent 0
                      (set_numberOfPacketsToSend 0 (set_packetBuffer a buffer)))
  | None => None
  end.

Definition bufferCleanCompleteBuffer (buffer : Buffer) (numberOfPacketsToClean : Z)
    : option Buffer :=
  match bufferCleanCompletePacketBuffer (packetBuffer buffer) numberOfPacketsToClean with
  | Some a => Some (set_numberOfPacketsSent 0
                      (set_numberOfPacketsToSend 0 (set_packetBuffer a buffer)))
  | None => None
  end.


Definition bufferCleanSerial (numberOfPacketsToClean : Z) : M unit :=
  buffer <- getRadio bufferSerial ;;
  cleaned <- access (bufferCleanBuffer buffer numberOfPacketsToClean) ;;
  setRadio (set_bufferSerial cleaned) ;;
  setRadio (set_currentPacketBufferSerial (Some 0%nat)) ;;
  setRadio (set_previousPacketNumber 0).

Definition bufferCleanStreamPackets (numberOfPacketsToClean : Z) : M unit :=
  buffer <- getRadio bufferStreamPackets ;;
  cleaned <- access (bufferCleanCompleteBuffer buffer numberOfPacketsToClean) ;;
  setRadio (set_bufferStreamPackets cleaned) ;;
  setRadio (set_currentPacketBufferStreamPacket (Some 0%nat)).

Definition bufferResetStreamPacketBuffer : M unit :=
  setRadio (fun r => set_streamPacketBuffer
    (set_readyForLaunch false
       (set_bytesIn 0 (set_gotHead false (streamPacketBuffer r)))) r).

(** *** The stream packet detector of the Device *)

Definition setStream (f : StreamPacketBuffer -> StreamPacketBuffer) : M unit :=
  setRadio (fun r => set_streamPacketBuffer (f (streamPacketBuffer r)) r).

Definition processCharForStreamPacket (newChar : Z) : M unit :=
  stream <- getRadio streamPacketBuffer ;;
  if readyForLaunch stream then
    bufferResetStreamPacketBuffer
  else if gotHead stream then
    stored <- access (write (streamData stream) (bytesIn stream) newChar) ;;
    setStream (set_streamData stored) ;;
    setStream (set_bytesIn (bytesIn stream + 1)) ;;
    if bytesIn stream + 1 =? OPENBCI_MAX_PACKET_SIZE_BYTES + 1 then
      if Z.land newChar 0xF0 =? 0xF0 then
        setStream (set_typeByte newChar) ;;
        now <- getBoard micros ;;
        setRadio (set_timeWeGot0xFXFromPic now) ;;
        setStream (set_readyForLaunch true)
      else if newChar =? OPENBCI_STREAM_PACKET_HEAD then
        setStream (set_bytesIn 1)
      else
        setStream (set_gotHead false)
    else ret tt
  else if newChar =? 65 then
    setStream (set_bytesIn 1) ;;
    setStream (set_gotHead true)
  else ret tt.





(** *** Moving the serial port into [bufferSerial] *)

Definition setSerial (f : Buffer -> Buffer) : M unit :=
  setRadio (fun r => set_bufferSerial (f (bufferSerial r)) r).

(** [*currentPacketBufferSerial]: the index and the packet it points to. *)
Definition currentSerialPacket : M (nat * PacketBuffer) :=
  pointer <- getRadio currentPacketBufferSerial ;;
  packets <- getRadio (fun r => packetBuffer (bufferSerial r)) ;;
  match pointer with
  | Some i => p <- access (packets !! i) ;; ret (i, p)
  | None => fault
  end.

Definition storeSerialPacket (i : nat) (p : PacketBuffer) : M unit :=
  setSerial (fun b => set_packetBuffer (<[i := p]> (packetBuffer b)) b).

(** The first half of a turn of the [while (Serial.available())] loop: when
    the current packet is full, go to the next one, or clean everything when
    the buffers ran out. *)
Definition bufferSerialFetch_room : M unit :=
  device <- getRadio isDevice ;;
  host <- getRadio isHost ;;
  current <- currentSerialPacket ;;
  if OPENBCI_MAX_PACKET_SIZE_BYTES <=? positionWrite (snd current) then
    setSerial (fun b => set_numberOfPacketsToSend (numberOfPacketsToSend b + 1) b) ;;
    toSend <- getRadio (fun r => numberOfPacketsToSend (bufferSerial r)) ;;
    if OPENBCI_MAX_NUMBER_OF_BUFFERS <=? toSend then
      setRadio (set_currentPacketBufferSerial None) ;;
      bufferCleanSerial OPENBCI_MAX_NUMBER_OF_BUFFERS ;;
      if device then
        sendToHost (Some [to_char ORPM_DEVICE_SERIAL_OVERFLOW]) 1 ;;
        Serial_printChar 118
      else when host (Serial_print "Input too large!$$$")
    else
      setRadio (set_currentPacketBufferSerial (Some (S (fst current))))
  else ret tt.

(** The second half: read a byte and store it in the current packet, or drop
    it when there is no current packet. *)
Definition bufferSerialFetch_store : M unit :=
  device <- getRadio isDevice ;;
  verbose <- getRadio verbosePrintouts ;;
  pointer <- getRadio currentPacketBufferSerial ;;
  match pointer with
  | Some _ =>
      c <- Serial_read ;;
      let newChar := to_char c in
      current <- currentSerialPacket ;;
      stored <- access (write (data (snd current)) (positionWrite (snd current)) newChar) ;;
      storeSerialPacket (fst current)
        (set_positionWrite (positionWrite (snd current) + 1)
           (set_data stored (snd current))) ;;
      when device (processCharForStreamPacket newChar)
  | None =>
      c <- Serial_read ;;
      when verbose (Serial_print "BO:" ;; Serial_printlnInt c)
  end.

(** One turn of the loop. *)
Definition bufferSerialFetch_turn : M unit :=
  device <- getRadio isDevice ;;
  bufferSerialFetch_room ;;
  bufferSerialFetch_store ;;
  when device pollRefresh ;;
  now <- getBoard millis ;;
  setRadio (set_lastTimeNewSerialDataWasAvailable now).

(** The loop leaves when the port is empty, and each turn reads one byte: it
    makes as many turns as there are bytes waiting. *)
Fixpoint bufferSerialFetch_loop (turns : nat) : M unit :=
  match turns with
  | O => ret tt
  | S turns' =>
      available <- Serial_available ;;
      if available =? 0 then ret tt
      else bufferSerialFetch_turn ;; bufferSerialFetch_loop turns'
  end.

Definition bufferSerialFetch : M unit :=
  toSend <- getRadio (fun r => numberOfPacketsToSend (bufferSerial r)) ;;
  when (toSend =? 0) (setSerial (set_numberOfPacketsToSend 1)) ;;
  waiting <- getBoard serialIn ;;
  bufferSerialFetch_loop (length waiting).


Definition getSerialDataFromPicAndPutItInTheDevicesSerialBuffer : M unit :=
  bufferSerialFetch.

Definition thereIsDataInSerialBuffer : M bool :=
  getRadio (fun r => numberOfPacketsSent (bufferSerial r)
                     <? numberOfPacketsToSend (bufferSerial r)).

Definition theLastTimeNewSerialDataWasAvailableWasLongEnough : M bool :=
  now <- getBoard millis ;;
  last <- getRadio lastTimeNewSerialDataWasAvailable ;;
  ret (uint32 (last + OPENBCI_MAX_SERIAL_TIMEOUT_MS) <? now).

(** *** Stream packets on the Host *)

Definition setStreamPackets (f : Buffer -> Buffer) : M unit :=
  setRadio (fun r => set_bufferStreamPackets (f (bufferStreamPackets r)) r).

Definition currentStreamPacket : M (nat * PacketBuffer) :=
  pointer <- getRadio currentPacketBufferStreamPacket ;;
  packets <- getRadio (fun r => packetBuffer (bufferStreamPackets r)) ;;
  match pointer with
  | Some i => p <- access (packets !! i) ;; ret (i, p)
  | None => fault
  end.

Definition bufferAddStreamPacket (bytes : list Z) (length : Z) : M unit :=
  toSend <- getRadio (fun r => numberOfPacketsToSend (bufferStreamPackets r)) ;;
  when (toSend =? 0) (setStreamPackets (set_numberOfPacketsToSend 1)) ;;
  for_ 0 length (fun i =>
    current <- currentStreamPacket ;;
    (if OPENBCI_MAX_PACKET_SIZE_BYTES <=? positionWrite (snd current) then
       setStreamPackets
         (fun b => set_numberOfPacketsToSend (numberOfPacketsToSend b + 1) b) ;;
       toSend <- getRadio (fun r => numberOfPacketsToSend (bufferStreamPackets r)) ;;
       if OPENBCI_MAX_NUMBER_OF_BUFFERS <=? toSend then
         setRadio (set_currentPacketBufferStreamPacket None)
       else
         setRadio (set_currentPacketBufferStreamPacket (Some (S (fst current))))
     else ret tt) ;;
    pointer <- getRadio currentPacketBufferStreamPacket ;;
    match pointer with
    | Some _ =>
        current <- currentStreamPacket ;;
        byte <- access (read bytes i) ;;
        stored <- access (write (data (snd current)) (positionWrite (snd current)) byte) ;;
        setStreamPackets (fun b => set_packetBuffer
          (<[fst current := set_positionWrite (positionWrite (snd current) + 1)
                              (set_data stored (snd current))]> (packetBuffer b)) b)
    | None => ret tt
    end).


(** [writeStreamPacket(data)]: [bytes] is the array from [data] on. *)
Definition writeStreamPacket (bytes : list Z) : M unit :=
  Serial_write OPENBCI_STREAM_BYTE_START ;;
  let positionToStopReading := OPENBCI_MAX_DATA_BYTES_IN_PACKET + 1 in
  for_ 1 positionToStopReading (fun i =>
    byte <- access (read bytes i) ;; Serial_write byte) ;;
  byteId <- access (read bytes 0) ;;
  Serial_write (outputGetStopByteFromByteId byteId).

(** The argument of the call is [bufferStreamPackets.packetBuffer->data +
    bufferStreamPackets.numberOfPacketsSent]: the [data] array of the first
    packet of the buffer, moved on by [numberOfPacketsSent] bytes. *)
Fixpoint writeTheHostsStreamPacketBufferToThePC_loop (turns : nat) : M unit :=
  match turns with
  | O => ret tt
  | S turns' =>
      toSend <- getRadio (fun r => numberOfPacketsToSend (bufferStreamPackets r)) ;;
      sent <- getRadio (fun r => numberOfPacketsSent (bufferStreamPackets r)) ;;
      if sent <? toSend then
        packets <- getRadio (fun r => packetBuffer (bufferStreamPackets r)) ;;
        first <- access (packets !! 0%nat) ;;
        bytes <- access (offset (data first) sent) ;;
        writeStreamPacket bytes ;;
        setStreamPackets (set_numberOfPacketsSent (sent + 1)) ;;
        writeTheHostsStreamPacketBufferToThePC_loop turns'
      else ret tt
  end.

(** The loop counts [numberOfPacketsSent] up to [numberOfPacketsToSend]. *)
Definition writeTheHostsStreamPacketBufferToThePC : M unit :=
  toSend <- getRadio (fun r => numberOfPacketsToSend (bufferStreamPackets r)) ;;
  sent <- getRadio (fun r => numberOfPacketsSent (bufferStreamPackets r)) ;;
  writeTheHostsStreamPacketBufferToThePC_loop (Z.to_nat (toSend - sent)) ;;
  toSend <- getRadio (fun r => numberOfPacketsToSend (bufferStreamPackets r)) ;;
  bufferCleanStreamPackets toSend.

(** *** The radio delegate *)

(** [radio.bufferSerial.packetBuffer + radio.bufferSerial.numberOfPacketsSent] *)
Definition packetToSend : M (nat * PacketBuffer) :=
  packets <- getRadio (fun r => packetBuffer (bufferSerial r)) ;;
  sent <- getRadio (fun r => numberOfPacketsSent (bufferSerial r)) ;;
  p <- access (read packets sent) ;;
  ret (Z.to_nat sent, p).

(** The reply of one control byte. *)
Definition sendMsg (device msg : Z) : M unit :=
  host <- getRadio isHost ;;
  if host then sendToDevice device [msg] 1
  else sendToHost (Some [msg]) 1 ;; pollRefresh.

(** [len == 1]: a radio comm packet.  The result is
    [willSendDataFromBufferSerial]. *)
Definition onReceive_code (device : Z) (bytes : list Z) : M bool :=
  host <- getRadio isHost ;;
  verbose <- getRadio verbosePrintouts ;;
  privateRadioCode <- access (read bytes 0) ;;
  waiting <- getRadio isWaitingForNewChannelNumber ;;
  if waiting then
    setRadio (set_isWaitingForNewChannelNumber false) ;;
    pollRefresh ;;
    success <- setChannelNumber (uint32 privateRadioCode) ;;
    when success
      (setBoard (set_gzllChannel (uint32 privateRadioCode)) ;; pollHost) ;;
    ret false
  else if privateRadioCode =? ORPM_PACKET_BAD_CHECK_SUM then
    setSerial (fun b => set_numberOfPacketsSent (numberOfPacketsSent b - 1) b) ;;
    when verbose (Serial_println "R<-B") ;;
    ret true
  else if privateRadioCode =? ORPM_PACKET_MISSED then
    setSerial (set_numberOfPacketsSent 0) ;;
    when verbose (Serial_println "R<-M") ;;
    ret true
  else if privateRadioCode =? ORPM_CHANGE_CHANNEL_HOST_REQUEST then
    when verbose (Serial_println "R<-CCHR") ;;
    (if host then
       sendToDevice device [to_char ORPM_INVALID_CODE_RECEIVED] 1
     else
       setRadio (set_isWaitingForNewChannelNumber true) ;;
       sendToHost (Some [to_char ORPM_CHANGE_CHANNEL_DEVICE_READY]) 1 ;;
       pollRefresh) ;;
    ret false
  else if privateRadioCode =? ORPM_CHANGE_CHANNEL_DEVICE_READY then
    when verbose (Serial_println "R<-CCDR") ;;
    (if host then
       channel <- getRadio radioChannel ;;
       sendToDevice device [to_char channel] 1 ;;
       setChannelNumber channel ;;
       setBoard (set_gzllChannel channel)
     else
       sendToHost (Some [to_char ORPM_CHANGE_CHANNEL_DEVICE_READY]) 1 ;;
       pollRefresh) ;;
    ret false
  else
    sendMsg device (to_char ORPM_INVALID_CODE_RECEIVED) ;;
    ret false.

(** What is looked at after a packet or an acknowledgement was taken: is
    there data in [bufferSerial] that is old enough to send. *)
Definition onReceive_moreToSend (poll : bool) : M bool :=
  device <- getRadio isDevice ;;
  sent <- getRadio (fun r => numberOfPacketsSent (bufferSerial r)) ;;
  toSend <- getRadio (fun r => numberOfPacketsToSend (bufferSerial r)) ;;
  if sent <? toSend then
    theLastTimeNewSerialDataWasAvailableWasLongEnough
  else if (sent =? toSend) && negb (toSend =? 0) then
    bufferCleanSerial sent ;; ret false
  else
    when (poll && device) pollHost ;; ret false.

(** [len > 1]: a packet with a byteId and data. *)
Definition onReceive_packet (device : Z) (bytes : list Z) (len : Z) : M bool :=
  verbose <- getRadio verbosePrintouts ;;
  byteId <- access (read bytes 0) ;;
  let packetNumber := byteIdGetPacketNumber byteId in
  when verbose (Serial_print "R<-" ;; Serial_printlnInt packetNumber) ;;
  equal <- access (checkSumsAreEqual bytes len) ;;
  previous <- getRadio previousPacketNumber ;;
  (* the verdict is (goodToAddPacketToRadioBuffer, gotLastPacket, msg[0]) *)
  verdict <-
    (if equal then
       if (packetNumber =? 0) && (previous =? 0) then
         ret (true, true, 0)
       else if (0 <? packetNumber) && (previous =? 0) then
         setRadio (set_previousPacketNumber packetNumber) ;;
         ret (true, false, 0)
       else if previous - packetNumber =? 1 then
         setRadio (set_previousPacketNumber packetNumber) ;;
         ret (true, packetNumber =? 0, 0)
       else
         setRadio (set_bufferPositionWriteRadio 0) ;;
         setRadio (set_previousPacketNumber 0) ;;
         when verbose (Serial_println "S->M") ;;
         ret (false, false, to_char (Z.land ORPM_PACKET_MISSED 0xFF))
     else
       when verbose (Serial_println "S->B") ;;
       ret (false, false, to_char (Z.land ORPM_PACKET_BAD_CHECK_SUM 0xFF))) ;;
  let '(goodToAddPacketToRadioBuffer, gotLastPacket, msg) := verdict in
  if goodToAddPacketToRadioBuffer then
    (if byteIdGetIsStream byteId then
       bufferAddStreamPacket bytes len
     else
       for_ 1 len (fun i =>
         position <- getRadio bufferPositionWriteRadio ;;
         when (position <? OPENBCI_BUFFER_LENGTH)
           (byte <- access (read bytes i) ;;
            buffer <- getRadio bufferRadio ;;
            stored <- access (write buffer position byte) ;;
            setRadio (set_bufferRadio stored) ;;
            setRadio (set_bufferPositionWriteRadio (position + 1)))) ;;
       when gotLastPacket
         (setRadio (set_isTheHostsRadioBufferFilledWithAllThePacketsFromTheDevice true) ;;
          setRadio (set_isTheDevicesRadioBufferFilledWithAllThePacketsFromTheHost true))) ;;
    willSend <- onReceive_moreToSend true ;;
    when verbose (Serial_println "S->N") ;;
    ret willSend
  else
    sendMsg device msg ;;
    ret false.

(** [len == 0]: a null byte acknowledgement. *)
Definition onReceive_ack : M bool :=
  confirmation <- getRadio isWaitingForNewChannelNumberConfirmation ;;
  if confirmation then
    setRadio (set_isWaitingForNewChannelNumberConfirmation false) ;;
    Serial_write OPENBCI_HOST_CHANNEL_CHANGE_SUCCESS ;;
    ret false
  else onReceive_moreToSend false.

(** The generic forwarding of the packet to send to the Device. *)
Definition forwardToDevice (device packetNumber : Z) : M unit :=
  verbose <- getRadio verbosePrintouts ;;
  when verbose (Serial_print "S->" ;; Serial_printlnInt packetNumber) ;;
  p <- packetToSend ;;
  sendToDevice device (data (snd p)) (positionWrite (snd p)).

(** [if (willSendDataFromBufferSerial) { ... }] *)
Definition onReceive_send (device : Z) (bytes : list Z) : M unit :=
  host <- getRadio isHost ;;
  verbose <- getRadio verbosePrintouts ;;
  toSend <- getRadio (fun r => numberOfPacketsToSend (bufferSerial r)) ;;
  sent <- getRadio (fun r => numberOfPacketsSent (bufferSerial r)) ;;
  let packetNumber := toSend - sent - 1 in
  p <- packetToSend ;;
  payload <- access (offset (data (snd p)) 1) ;;
  byteId <- access (byteIdMake false packetNumber (Some payload)
                      (positionWrite (snd p) - 1)) ;;
  stored <- access (write (data (snd p)) 0 byteId) ;;
  storeSerialPacket (fst p) (set_data stored (snd p)) ;;
  (if host then
     if (toSend =? 1) && (packetNumber =? 0) then
       p <- packetToSend ;;
       if positionWrite (snd p) =? 2 then
         command <- access (read (data (snd p)) 1) ;;
         if command =? OPENBCI_HOST_TIME_SYNC then
           Serial_write OPENBCI_HOST_TIME_SYNC_ACK ;;
           sendToDevice device (data (snd p)) (positionWrite (snd p))
         else if command =? OPENBCI_HOST_CHANNEL_QUERY then
           channel <- getChannelNumber ;;
           Serial_write channel ;;
           bufferCleanSerial 1
         else forwardToDevice device packetNumber
       else if positionWrite (snd p) =? 3 then
         command <- access (read (data (snd p)) 1) ;;
         if command =? OPENBCI_HOST_CHANNEL_CHANGE then
           received <- access (read bytes 2) ;;
           if RFDUINOGZLL_CHANNEL_LIMIT_UPPER <? received then
             Serial_write OPENBCI_HOST_CHANNEL_CHANGE_INVALID
           else
             channel <- access (read (data (snd p)) 2) ;;
             when verbose (Serial_print "New channel: " ;; Serial_printlnInt channel) ;;
             previous <- getChannelNumber ;;
             setRadio (set_previousRadioChannel previous) ;;
             setRadio (set_radioChannel channel) ;;
             sendToDevice device [to_char ORPM_CHANGE_CHANNEL_HOST_REQUEST] 1
         else forwardToDevice device packetNumber
       else forwardToDevice device packetNumber
     else forwardToDevice device packetNumber
   else
     when verbose (Serial_print "S->" ;; Serial_printlnInt packetNumber) ;;
     p <- packetToSend ;;
     sendToHost (Some (data (snd p))) (positionWrite (snd p)) ;;
     pollRefresh) ;;
  setSerial (fun b => set_numberOfPacketsSent (numberOfPacketsSent b + 1) b).

Definition RFduinoGZLL_onReceive (device rssi : Z) (bytes : list Z) (len : Z)
    : M unit :=
  host <- getRadio isHost ;;
  now <- getBoard millis ;;
  when host (setRadio (set_lastTimeHostHeardFromDevice now)) ;;
  willSendDataFromBufferSerial <-
    (if len =? 1 then onReceive_code device bytes
     else if 1 <? len then onReceive_packet device bytes len
     else onReceive_ack) ;;
  when willSendDataFromBufferSerial (onReceive_send device bytes).

End Protocol.

(** ** A board to run the code on

    Sample values for the constants of the header, with a buffer of four
    packets, and the state the radio is in once [configure] has cleaned its
    buffers. *)

Definition sampleHeader : Header := {|
  OPENBCI_MAX_NUMBER_OF_BUFFERS := 4;
  OPENBCI_BUFFER_LENGTH := 128;
  OPENBCI_MAX_SERIAL_TIMEOUT_MS := 3;
  OPENBCI_SERIAL_TIMEOUT_uS := 100;
  OPENBCI_STREAM_BYTE_START := 0xA0;
  OPENBCI_HOST_TIME_SYNC := 0x3C;
  OPENBCI_HOST_TIME_SYNC_ACK := 0x2C;
  OPENBCI_HOST_CHANNEL_QUERY := 0x00;
  OPENBCI_HOST_CHANNEL_CHANGE := 0x01;
  OPENBCI_HOST_CHANNEL_CHANGE_SUCCESS := 0x02;
  OPENBCI_HOST_CHANNEL_CHANGE_INVALID := 0x03;
  ORPM_INVALID_CODE_RECEIVED := 0x00;
  ORPM_PACKET_BAD_CHECK_SUM := 0x01;
  ORPM_PACKET_MISSED := 0x02;
  ORPM_DEVICE_SERIAL_OVERFLOW := 0x04;
  ORPM_CHANGE_CHANNEL_HOST_REQUEST := 0x05;
  ORPM_CHANGE_CHANNEL_DEVICE_READY := 0x06;
  RFDUINOGZLL_CHANNEL_LIMIT_UPPER := 25
|}.

Section Fixtures.

Context {header : Header}.

(** A packet as [bufferCleanPacketBuffer] ([fresh = 1]) or
    [bufferCleanCompletePacketBuffer] ([fresh = 0]) leaves it. *)
Definition cleanPacket (fresh : Z) : PacketBuffer :=
  {| data := replicate (Z.to_nat OPENBCI_MAX_PACKET_SIZE_BYTES) 0;
     positionRead := 0;
     positionWrite := fresh |}.

Definition cleanBuffer (fresh : Z) : Buffer :=
  {| packetBuffer := replicate (Z.to_nat OPENBCI_MAX_NUMBER_OF_BUFFERS) (cleanPacket fresh);
     numberOfPacketsToSend := 0;
     numberOfPacketsSent := 0 |}.

Definition cleanStreamPacketBuffer (size : nat) : StreamPacketBuffer :=
  {| gotHead := false; readyForLaunch := false; typeByte := 0;
     streamData := replicate size 0; bytesIn := 0 |}.

(** The radio after [configure]; [host] chooses the role, [verbose] is
    [verbosePrintouts]. *)
Definition cleanRadio (host verbose : bool) : Radio :=
  {| isHost := host;
     isDevice := negb host;
     verbosePrintouts := verbose;
     debugMode := true;
     radioChannel := 25;
     previousRadioChannel := 25;
     bufferSerial := cleanBuffer 1;
     currentPacketBufferSerial := Some 0%nat;
     bufferStreamPackets := cleanBuffer 0;
     currentPacketBufferStreamPacket := Some 0%nat;
     streamPacketBuffer := cleanStreamPacketBuffer 33;
     bufferRadio := replicate (Z.to_nat OPENBCI_BUFFER_LENGTH) 0;
     bufferPacketsReceived := 0;
     bufferPacketsToReceive := 0;
     bufferPositionReadRadio := 0;
     bufferPositionWriteRadio := 0;
     isTheDevicesRadioBufferFilledWithAllThePacketsFromTheHost := false;
     isTheHostsRadioBufferFilledWithAllThePacketsFromTheDevice := false;
     previousPacketNumber := 0;
     isWaitingForNewChannelNumber := false;
     isWaitingForNewChannelNumberConfirmation := false;
     lastTimeHostHeardFromDevice := 0;
     lastTimeNewSerialDataWasAvailable := 0;
     timeOfLastPoll := 0;
     timeWeGot0xFXFromPic := 0 |}.

(** A board with [input] waiting on the serial port, at time [now]. *)
Definition quietBoard (input : list Z) (now : Z) : Board :=
  {| serialIn := input; serialOut := []; radioOut := [];
     gzllChannel := 25; flashWord := 25;
     flashPageEraseRc := 0; flashWriteRc := 0;
     millis := now; micros := now * 1000 |}.

Definition cleanWorld (host verbose : bool) (input : list Z) (now : Z) : World :=
  {| radio := cleanRadio host verbose; board := quietBoard input now |}.

(** The world a run leaves, whether it returned or not. *)
Definition worldOf {A : Type} (o : outcome A) : World :=
  match o with
  | Done _ w => w
  | Fault w => w
  end.

Definition returned {A : Type} (o : outcome A) : bool :=
  match o with
  | Done _ _ => true
  | Fault _ => false
  end.

(** The bytes [0, 1, ..., n - 1]. *)
Definition ramp (n : nat) : list Z := map Z.of_nat (seq 0 n).

(** The payload a packet of [bufferSerial] holds: positions 1 to
    [positionWrite - 1] of its [data]. *)
Definition payloadOf (p : PacketBuffer) : list Z :=
  take (Z.to_nat (positionWrite p - 1)) (drop 1 (data p)).

(** The payloads of the packets to send, in packet order. *)
Definition payloadsOf (b : Buffer) : list Z :=
  concat (map payloadOf (take (Z.to_nat (numberOfPacketsToSend b)) (packetBuffer b))).

End Fixtures.

(** ** Notions used in the statements *)

Section Notions.

Context {header : Header}.

(** The invariant of a [Buffer]:
    [0 <= numberOfPacketsSent <= numberOfPacketsToSend <= N]. *)
Definition countersOk (b : Buffer) : Prop :=
  0 <= numberOfPacketsSent b
  /\ numberOfPacketsSent b <= numberOfPacketsToSend b
  /\ numberOfPacketsToSend b <= OPENBCI_MAX_NUMBER_OF_BUFFERS.


End Notions.

Definition sumZ (l : list Z) : Z := foldr Z.add 0 l.

(** The byteId [byteIdMake] builds from the flag, the four bits [k] of the
    packet number and the check sum [c]. *)
Definition byteIdOf (b : bool) (k c : Z) : Z :=
  to_char (Z.lor (to_char (Z.lor (if b then to_char (Z.lor 0x00 0x80) else 0x00)
                                 (Z.shiftl k 3))) c).

(** The four extractors give back what [byteIdOf] packed. *)
Definition byteIdOf_unpacks (b : bool) (k c : Z) : bool :=
  (byteIdGetCheckSum (byteIdOf b k c) =? c)
  && (byteIdGetPacketNumber (byteIdOf b k c) =? k)
  && (byteIdGetStreamPacketType (byteIdOf b k c) =? k)
  && bool_decide (byteIdGetIsStream (byteIdOf b k c) = b).

(** Flipping bit [k] of a byte. *)
Definition flipBit (byte k : Z) : Z := Z.lxor byte (2 ^ k).

(** What [bufferCleanPacketBuffer] ([fresh = 1]) and
    [bufferCleanCompletePacketBuffer] ([fresh = 0]) do to one packet. *)
Definition cleanIt (fresh : Z) (p : PacketBuffer) : PacketBuffer :=
  set_positionWrite fresh (set_positionRead 0 p).

(** A run returns, with a result and a world that satisfy [Q]. *)
Definition runsTo {A : Type} (m : M A) (w : World) (Q : A -> World -> Prop) : Prop :=
  exists a w', m w = Done a w' /\ Q a w'.

Section Ingestion.

Context {header : Header}.











End Ingestion.

(** The world at a later time. *)
Definition atTime (ms us : Z) (w : World) : World :=
  set_board (set_micros us (set_millis ms (board w))) w.

(** The reply of one control byte, as the role sends it. *)
Definition replyOf (host : bool) (device msg : Z) : RadioEvent :=
  if host then SendToDevice device [msg] else SendToHost [msg].

(** ** Sample worlds *)

(** A Host in the middle of a page: the last packet it took had number 3. *)
Definition midPageWorld : World :=
  set_radio (set_previousPacketNumber 3 (cleanRadio (header := sampleHeader) true false))
    (cleanWorld (header := sampleHeader) true false [] 10).


(** A Host with clean buffers and quiet printouts, at time 10. *)
Definition cleanHost : World := cleanWorld (header := sampleHeader) true false [] 10.

(** A Host that has just read the one byte command
    [OPENBCI_HOST_CHANNEL_QUERY] from the PC, a second later. *)
Definition hostWithQuery : World :=
  atTime 1000 1000000
    (worldOf (bufferSerialFetch (header := sampleHeader)
                (cleanWorld (header := sampleHeader) true false [0x00] 10))).

(** A Host with [n] bytes waiting on its serial port. *)
Definition hostWithInput (n : nat) : World :=
  cleanWorld (header := sampleHeader) true false (ramp n) 10.

(** A Device with [n] bytes waiting on its serial port. *)
Definition deviceWithInput (n : nat) : World :=
  cleanWorld (header := sampleHeader) false false (ramp n) 10.

(** Two stream packets as the Device sends them, of stream packet types 0
    and 5, with payloads 100..130 and 200..230. *)
Definition streamPacketA : list Z := 131 :: map (fun x => x + 100) (ramp 31).
Definition streamPacketB : list Z := 175 :: map (fun x => x + 200) (ramp 31).

(** A Host that took [streamPacketA], and one that took [streamPacketB] after
    it, before the main loop wrote anything to the PC. *)
Definition hostWithOneStreamPacket : World :=
  worldOf (RFduinoGZLL_onReceive (header := sampleHeader) 0 0 streamPacketA 32 cleanHost).
Definition hostWithTwoStreamPackets : World :=
  worldOf (RFduinoGZLL_onReceive (header := sampleHeader) 0 0 streamPacketB 32
             hostWithOneStreamPacket).

(** What the claim says the Host writes to the PC for a stream packet. *)
Definition streamFrameOf {header : Header} (packet : list Z) : list SerialEvent :=
  SerialWrite (to_char OPENBCI_STREAM_BYTE_START)
  :: map SerialWrite (take 31 (drop 1 packet))
  ++ [SerialWrite (Z.lor (byteIdGetStreamPacketType (hd 0 packet)) 0xC0)].


(** ** The main loop's side of the class

    The functions the sketches call from [setup] and [loop].  Their header
    constants and the constants of the Arduino core are the fields of
    [Wiring]. *)

Class Wiring : Type := {
  OPENBCI_POLL_TIME_DURATION_MS : Z;
  RFDUINOGZLL_CHANNEL_LIMIT_LOWER : Z;
  OPENBCI_MODE_DEVICE : Z;
  OPENBCI_MODE_PASS_THRU : Z;
  OPENBCI_PIN_HOST_RESET : Z;
  OPENBCI_PIN_HOST_LED : Z;
  OPENBCI_PIN_DEVICE_PCG : Z;
  RFDUINOGZLL_ROLE_DEVICE : Z;
  RFDUINOGZLL_ROLE_HOST : Z;
  INPUT : Z;
  OUTPUT : Z;
  OUTPUT_D0H1 : Z;
  HIGH : Z;
  LOW : Z
}.

Section MainLoop.

Context {header : Header} {wiring : Wiring}.

Definition needToSetChannelNumber : M bool :=
  channel <- getChannelNumber ;; ret (channel =? 0xFFFFFFFF).

Definition revertToPreviousChannelNumber : M unit :=
  previous <- getRadio previousRadioChannel ;;
  setBoard (set_gzllChannel previous).

Definition didPCSendDataToHost : M bool :=
  available <- Serial_available ;;
  if 0 <? available then ret true else ret false.


Definition hasItBeenTooLongSinceHostHeardFromDevice : M bool :=
  now <- getBoard millis ;;
  last <- getRadio lastTimeHostHeardFromDevice ;;
  if uint32 (last + OPENBCI_POLL_TIME_DURATION_MS * 2) <? now then ret true
  else ret false.

Definition pollNow : M bool :=
  now <- getBoard millis ;;
  last <- getRadio timeOfLastPoll ;;
  ret (OPENBCI_POLL_TIME_DURATION_MS <? uint32 (now - last)).

Definition didPicSendDeviceSerialData : M bool :=
  available <- Serial_available ;;
  if 0 <? available then ret true
  else
    due <- pollNow ;;
    when due pollHost ;;
    ret false.

(** [bufferSerial.packetBuffer->...] is the first packet of the buffer. *)
Definition sendTheDevicesFirstPacketToTheHost : M unit :=
  toSend <- getRadio (fun r => numberOfPacketsToSend (bufferSerial r)) ;;
  sent <- getRadio (fun r => numberOfPacketsSent (bufferSerial r)) ;;
  if (0 <? toSend) && (sent =? 0) then
    let packetNumber := toSend - 1 in
    packets <- getRadio (fun r => packetBuffer (bufferSerial r)) ;;
    first <- access (packets !! 0%nat) ;;
    payload <- access (offset (data first) 1) ;;
    byteId <- access (byteIdMake false packetNumber (Some payload)
                        (positionWrite first - 1)) ;;
    stored <- access (write (data first) 0 byteId) ;;
    storeSerialPacket 0 (set_data stored first) ;;
    command <- access (read stored 1) ;;
    (if command =? 0x00 then
       channel <- getChannelNumber ;; Serial_write channel
     else ret tt) ;;
    sendToHost (Some stored) (positionWrite first) ;;
    setSerial (set_numberOfPacketsSent 1) ;;
    pollRefresh ;;
    verbose <- getRadio verbosePrintouts ;;
    when verbose
      (Serial_print "Si->" ;; Serial_printInt packetNumber ;;
       Serial_print ":" ;; Serial_printlnInt (positionWrite first))
  else ret tt.


(** [buffer] is [None] for [NULL]. *)
Definition writeBufferToSerial (buffer : option (list Z)) (length : Z) : M unit :=
  match buffer with
  | None => ret tt
  | Some bytes =>
      for_ 0 length (fun i => byte <- access (read bytes i) ;; Serial_write byte)
  end.

End MainLoop.

(** ** Notions for the stream packets on the Host *)









Section Exchange.

Context {header : Header}.


(** The delegate called for each of [packets], one after the other. *)
Fixpoint deliver (device rssi : Z) (packets : list (list Z)) : M unit :=
  match packets with
  | [] => ret tt
  | p :: rest =>
      RFduinoGZLL_onReceive device rssi p (Z.of_nat (length p)) ;;
      deliver device rssi rest
  end.

End Exchange.





(** A run does not return: it faults, and leaves a world that satisfies [Q]. *)
Definition faultsTo {A : Type} (m : M A) (w : World) (Q : World -> Prop) : Prop :=
  exists w', m w = Fault w' /\ Q w'.

(** ** More sample worlds *)

(** Sample values for the constants of the header that the main loop and
    [configure] use. *)
Definition sampleWiring : Wiring := {|
  OPENBCI_POLL_TIME_DURATION_MS := 80;
  RFDUINOGZLL_CHANNEL_LIMIT_LOWER := 0;
  OPENBCI_MODE_DEVICE := 1;
  OPENBCI_MODE_PASS_THRU := 2;
  OPENBCI_PIN_HOST_RESET := 6;
  OPENBCI_PIN_HOST_LED := 2;
  OPENBCI_PIN_DEVICE_PCG := 5;
  RFDUINOGZLL_ROLE_DEVICE := 0;
  RFDUINOGZLL_ROLE_HOST := 8;
  INPUT := 0;
  OUTPUT := 1;
  OUTPUT_D0H1 := 6;
  HIGH := 1;
  LOW := 0
|}.

Definition idleDevice : World := cleanWorld (header := sampleHeader) false false [] 1000.

(** A Device that has just read 40 bytes, two packets to send, and a Device
    that has read 5 bytes and sent them as its one packet. *)
Definition deviceWithPage : World :=
  worldOf (bufferSerialFetch (header := sampleHeader) (deviceWithInput 40)).
Definition deviceAtEndOfPage : World :=
  worldOf (sendTheDevicesFirstPacketToTheHost
             (worldOf (bufferSerialFetch (header := sampleHeader) (deviceWithInput 5)))).

(** A third stream packet, of stream packet type 4, and a Host that took the
    three stream packets before the main loop wrote anything to the PC. *)
Definition streamPacketC : list Z := 167 :: ramp 31.
Definition hostWithThreeStreamPackets : World :=
  worldOf (deliver (header := sampleHeader) 0 0
             [streamPacketA; streamPacketB; streamPacketC] cleanHost).

(** * Properties of the codec *)

Lemma ramp_elem (n : nat) (k : Z) : 0 <= k < Z.of_nat n -> In k (ramp n).
Proof.
  intros Hk. unfold ramp. apply in_map_iff. exists (Z.to_nat k). split.
  - lia.
  - apply in_seq. lia.
Qed.

Lemma forallb_ramp (P : Z -> bool) (n : nat) :
  forallb P (ramp n) = true -> forall k, 0 <= k < Z.of_nat n -> P k = true.
Proof.
  intros Hall k Hk. rewrite forallb_forall in Hall. apply Hall, ramp_elem, Hk.
Qed.

Lemma land_7 (x : Z) : Z.land x 0x07 = x mod 8.
Proof. change 0x07 with (Z.ones 3). rewrite Z.land_ones by lia. reflexivity. Qed.

Lemma land_15 (x : Z) : Z.land x 0x0F = x mod 16.
Proof. change 0x0F with (Z.ones 4). rewrite Z.land_ones by lia. reflexivity. Qed.

Lemma to_char_small (x : Z) : 0 <= x < 256 -> to_char x = x.
Proof. intros Hx. unfold to_char. apply Z.mod_small, Hx. Qed.

Lemma byteIdOf_table :
  forallb (fun b => forallb (fun k => forallb (byteIdOf_unpacks b k) (ramp 8)) (ramp 16))
    [true; false] = true.
Proof. vm_compute. reflexivity. Qed.

Lemma byteIdOf_fields (b : bool) (k c : Z) :
  0 <= k < 16 -> 0 <= c < 8 ->
  byteIdGetCheckSum (byteIdOf b k c) = c
  /\ byteIdGetPacketNumber (byteIdOf b k c) = k
  /\ byteIdGetStreamPacketType (byteIdOf b k c) = k
  /\ byteIdGetIsStream (byteIdOf b k c) = b.
Proof.
  intros Hk Hc.
  assert (Hok : byteIdOf_unpacks b k c = true).
  { pose proof byteIdOf_table as Htab. rewrite forallb_forall in Htab.
    assert (Hb : In b [true; false]) by (destruct b; simpl; auto).
    specialize (Htab b Hb). cbv beta in Htab.
    pose proof (forallb_ramp _ _ Htab k Hk) as Hrow. cbv beta in Hrow.
    exact (forallb_ramp _ _ Hrow c Hc). }
  unfold byteIdOf_unpacks in Hok.
  repeat (apply andb_prop in Hok; destruct Hok as [Hok ?]).
  repeat split; try (apply Z.eqb_eq; assumption).
  eapply bool_decide_eq_true_1; eassumption.
Qed.

(** The loop of [checkSumMake] adds up the first [len] bytes, when there are
    that many. *)
Lemma checkSumMake_loop_sum (bytes : list Z) :
  forall s len,
    1 <= len <= Z.of_nat (length bytes) -> len < 2 ^ 31 ->
    checkSumMake_loop bytes s len
    = Some (uint32 (s + sumZ (take (Z.to_nat len) bytes))).
Proof.
  induction bytes as [|d rest IH]; intros s len Hlen Hint.
  - simpl in Hlen. lia.
  - cbn [checkSumMake_loop].
    assert (Hwrap : int32 (len - 1) = len - 1).
    { unfold int32. rewrite Z.mod_small by lia. lia. }
    rewrite Hwrap.
    destruct (Z.eqb_spec (len - 1) 0) as [Hone | Hmore].
    + replace len with 1 by lia. simpl. do 2 f_equal. lia.
    + rewrite IH by (simpl in Hlen; lia).
      replace (Z.to_nat len) with (S (Z.to_nat (len - 1))) by lia.
      cbn [take sumZ foldr]. fold (sumZ (take (Z.to_nat (len - 1)) rest)).
      f_equal. unfold uint32. rewrite Zplus_mod_idemp_l. f_equal. lia.
Qed.

Lemma checkSumMake_some (bytes : list Z) (len : Z) :
  1 <= len <= Z.of_nat (length bytes) -> len < 2 ^ 31 ->
  checkSumMake (Some bytes) len
  = Some (Z.land (uint32 (- uint32 (sumZ (take (Z.to_nat len) bytes)))) 0x07).
Proof.
  intros Hlen Hint. unfold checkSumMake.
  rewrite (checkSumMake_loop_sum bytes 0 len Hlen Hint). cbn [Z.add].
  f_equal. apply to_char_small. rewrite land_7.
  pose proof (Z.mod_pos_bound (uint32 (- uint32 (sumZ (take (Z.to_nat len) bytes)))) 8).
  lia.
Qed.

Lemma checkSumMake_range (d : option (list Z)) (len c : Z) :
  checkSumMake d len = Some c -> 0 <= c < 8.
Proof.
  unfold checkSumMake. destruct d as [bytes|].
  - destruct (checkSumMake_loop bytes 0 len) as [s|]; [|discriminate].
    intros [= <-]. rewrite land_7.
    pose proof (Z.mod_pos_bound (uint32 (- s)) 8 ltac:(lia)) as Hc.
    rewrite to_char_small; lia.
  - intros [= <-]. lia.
Qed.

(** The check sum only depends on the sum of the bytes modulo 8. *)
Lemma checkSum_mod_8 (x : Z) : Z.land (uint32 (- uint32 x)) 0x07 = (- x) mod 8.
Proof.
  rewrite land_7. unfold uint32.
  rewrite Z.mod_mod_divide by (exists 536870912; reflexivity).
  rewrite (Z.mod_eq x (2 ^ 32)) by lia. change (2 ^ 32) with 4294967296.
  replace (- (x - 4294967296 * (x / 4294967296)))
    with (- x + 536870912 * (x / 4294967296) * 8) by lia.
  apply Z_mod_plus_full.
Qed.

Lemma byteIdMake_byteIdOf (b : bool) (n : Z) (d : option (list Z)) (len c : Z) :
  checkSumMake d len = Some c ->
  byteIdMake b n d len = Some (byteIdOf b (n mod 16) c).
Proof.
  intros Hc. unfold byteIdMake, byteIdOf. rewrite Hc, land_15. reflexivity.
Qed.

(** The check sum of a valid input: 0 for a null pointer, else the low three
    bits of the negated sum of the bytes. *)
Lemma checkSumMake_valid (d : option (list Z)) (len : Z) :
  (forall bytes, d = Some bytes ->
                 1 <= len <= Z.of_nat (length bytes) /\ len < 2 ^ 31) ->
  checkSumMake d len
  = Some (match d with
          | None => 0
          | Some bytes =>
              Z.land (uint32 (- uint32 (sumZ (take (Z.to_nat len) bytes)))) 0x07
          end).
Proof.
  intros Hvalid. destruct d as [bytes|].
  - destruct (Hvalid bytes eq_refl) as [Hlen Hint].
    apply checkSumMake_some; assumption.
  - reflexivity.
Qed.

(** C8, as the code has it: [checkSumMake] returns 0 for a null [data]; for
    a [data] that holds at least [length >= 1] bytes it returns the low three
    bits of the negated unsigned 32 bit sum of the first [length] bytes. *)
Theorem checkSumMake_returns (d : option (list Z)) (len : Z) :
  (forall bytes, d = Some bytes ->
                 1 <= len <= Z.of_nat (length bytes) /\ len < 2 ^ 31) ->
  checkSumMake d len
  = Some (match d with
          | None => 0
          | Some bytes =>
              Z.land (uint32 (- uint32 (sumZ (take (Z.to_nat len) bytes)))) 0x07
          end).
Proof. exact (checkSumMake_valid d len). Qed.

Lemma checkSumMake_returns_witness : checkSumMake (Some [1; 2; 3]) 3 = Some 2.
Proof.
  refine (checkSumMake_returns (Some [1; 2; 3]) 3 _).
  intros bytes [= <-]. simpl. lia.
Defined.

(** C8, as the claim has it, fails for a length of zero: the body of the
    do-while loop runs before the count is looked at, the count goes to -1 and
    the loop reads on until it leaves the array. *)
Lemma checkSumMake_zero_length :
  checkSumMake (Some [1; 2; 3]) 0 = None
  /\ checkSumMake (Some [1; 2; 3]) 0 <> Some 0.
Proof. split; [reflexivity | discriminate]. Qed.

(** C2: for a payload of 1 to 31 bytes, any flag and any packet number the
    byteId made by [byteIdMake], put in front of the payload, passes
    [checkSumsAreEqual]. *)
Theorem codec_round_trip (b : bool) (n : Z) (payload : list Z) (len : Z) :
  len = Z.of_nat (length payload) -> 1 <= len <= 31 ->
  exists byteId,
    byteIdMake b n (Some payload) len = Some byteId
    /\ checkSumsAreEqual (byteId :: payload) (len + 1) = Some true.
Proof.
  intros Hlen Hrange.
  pose proof (checkSumMake_some payload len ltac:(lia) ltac:(lia)) as Hsum.
  pose proof (checkSumMake_range _ _ _ Hsum) as Hc.
  exists (byteIdOf b (n mod 16) (Z.land (uint32 (- uint32 (sumZ (take (Z.to_nat len) payload)))) 0x07)).
  split.
  - apply byteIdMake_byteIdOf, Hsum.
  - unfold checkSumsAreEqual. replace (len + 1 - 1) with len by lia. rewrite Hsum.
    destruct (byteIdOf_fields b (n mod 16) _ (Z.mod_pos_bound n 16 ltac:(lia)) Hc)
      as (Hcs & _).
    rewrite Hcs, Z.eqb_refl. reflexivity.
Qed.

Lemma codec_round_trip_witness :
  exists byteId,
    byteIdMake true 3 (Some [10; 20; 30]) 3 = Some byteId
    /\ checkSumsAreEqual (byteId :: [10; 20; 30]) (3 + 1) = Some true.
Proof.
  apply (codec_round_trip true 3 [10; 20; 30] 3); [reflexivity | lia].
Defined.



(** * Running the code on a symbolic world *)

(** Unfolds the primitives of a run and the field updates, nothing else. *)
Ltac run := cbv beta iota zeta delta
    [data set_data positionRead set_positionRead positionWrite set_positionWrite
     packetBuffer set_packetBuffer numberOfPacketsToSend set_numberOfPacketsToSend
     numberOfPacketsSent set_numberOfPacketsSent gotHead set_gotHead readyForLaunch
     set_readyForLaunch typeByte set_typeByte streamData set_streamData bytesIn
     set_bytesIn isHost isDevice verbosePrintouts debugMode radioChannel
     set_radioChannel previousRadioChannel set_previousRadioChannel bufferSerial
     set_bufferSerial currentPacketBufferSerial set_currentPacketBufferSerial
     bufferStreamPackets set_bufferStreamPackets currentPacketBufferStreamPacket
     set_currentPacketBufferStreamPacket streamPacketBuffer set_streamPacketBuffer
     bufferRadio set_bufferRadio bufferPacketsReceived set_bufferPacketsReceived
     bufferPacketsToReceive set_bufferPacketsToReceive bufferPositionReadRadio
     set_bufferPositionReadRadio bufferPositionWriteRadio set_bufferPositionWriteRadio
     isTheDevicesRadioBufferFilledWithAllThePacketsFromTheHost
     set_isTheDevicesRadioBufferFilledWithAllThePacketsFromTheHost
     isTheHostsRadioBufferFilledWithAllThePacketsFromTheDevice
     set_isTheHostsRadioBufferFilledWithAllThePacketsFromTheDevice previousPacketNumber
     set_previousPacketNumber isWaitingForNewChannelNumber
     set_isWaitingForNewChannelNumber isWaitingForNewChannelNumberConfirmation
     set_isWaitingForNewChannelNumberConfirmation lastTimeHostHeardFromDevice
     set_lastTimeHostHeardFromDevice lastTimeNewSerialDataWasAvailable
     set_lastTimeNewSerialDataWasAvailable timeOfLastPoll set_timeOfLastPoll
     timeWeGot0xFXFromPic set_timeWeGot0xFXFromPic serialIn set_serialIn serialOut
     set_serialOut radioOut set_radioOut gzllChannel set_gzllChannel flashWord
     set_flashWord flashPageEraseRc flashWriteRc millis set_millis micros set_micros
     radio set_radio board set_board
     bind ret fault access getRadio setRadio getBoard setBoard when
     Serial_out Serial_write Serial_print Serial_printInt Serial_printChar
     Serial_println Serial_printlnInt Radio_out sendToHost sendToDevice
     pollRefresh pollHost sendMsg setSerial setStream setStreamPackets fst snd].

(** The same in the hypotheses too, once the world is a record of variables;
    the fields that hypotheses fix take their values. *)
Ltac run_in_all := cbv beta iota zeta delta
    [data set_data positionRead set_positionRead positionWrite set_positionWrite
     packetBuffer set_packetBuffer numberOfPacketsToSend set_numberOfPacketsToSend
     numberOfPacketsSent set_numberOfPacketsSent gotHead set_gotHead readyForLaunch
     set_readyForLaunch typeByte set_typeByte streamData set_streamData bytesIn
     set_bytesIn isHost isDevice verbosePrintouts debugMode radioChannel
     set_radioChannel previousRadioChannel set_previousRadioChannel bufferSerial
     set_bufferSerial currentPacketBufferSerial set_currentPacketBufferSerial
     bufferStreamPackets set_bufferStreamPackets currentPacketBufferStreamPacket
     set_currentPacketBufferStreamPacket streamPacketBuffer set_streamPacketBuffer
     bufferRadio set_bufferRadio bufferPacketsReceived set_bufferPacketsReceived
     bufferPacketsToReceive set_bufferPacketsToReceive bufferPositionReadRadio
     set_bufferPositionReadRadio bufferPositionWriteRadio set_bufferPositionWriteRadio
     isTheDevicesRadioBufferFilledWithAllThePacketsFromTheHost
     set_isTheDevicesRadioBufferFilledWithAllThePacketsFromTheHost
     isTheHostsRadioBufferFilledWithAllThePacketsFromTheDevice
     set_isTheHostsRadioBufferFilledWithAllThePacketsFromTheDevice previousPacketNumber
     set_previousPacketNumber isWaitingForNewChannelNumber
     set_isWaitingForNewChannelNumber isWaitingForNewChannelNumberConfirmation
     set_isWaitingForNewChannelNumberConfirmation lastTimeHostHeardFromDevice
     set_lastTimeHostHeardFromDevice lastTimeNewSerialDataWasAvailable
     set_lastTimeNewSerialDataWasAvailable timeOfLastPoll set_timeOfLastPoll
     timeWeGot0xFXFromPic set_timeWeGot0xFXFromPic serialIn set_serialIn serialOut
     set_serialOut radioOut set_radioOut gzllChannel set_gzllChannel flashWord
     set_flashWord flashPageEraseRc flashWriteRc millis set_millis micros set_micros
     radio set_radio board set_board
     bind ret fault access getRadio setRadio getBoard setBoard when
     Serial_out Serial_write Serial_print Serial_printInt Serial_printChar
     Serial_println Serial_printlnInt Radio_out sendToHost sendToDevice
     pollRefresh pollHost sendMsg setSerial setStream setStreamPackets fst snd] in *.

Ltac open_world w :=
  let r := fresh "r" in
  let b := fresh "b" in
  destruct w as [r b]; destruct r, b; run_in_all; subst.

(** The same with the buffers opened too. *)
Ltac open_all w :=
  open_world w;
  repeat match goal with
         | x : Buffer |- _ => destruct x
         | x : StreamPacketBuffer |- _ => destruct x
         end;
  run_in_all; subst.

Lemma bytes_of_one (x : Z) : bytes_of [x] 1 = Some [x].
Proof. reflexivity. Qed.

(** * The receive delegate on a packet *)

(** C5: a packet with a good check sum whose number is not the single packet
    of a page, not the first packet of a page and not one less than the
    previous number is not put into a buffer; the write position of
    [bufferRadio] and [previousPacketNumber] go back to 0 and the reply is
    the code [ORPM_PACKET_MISSED]. *)
Theorem missed_packet_rejected {header : Header} (w : World) (device rssi : Z) (bytes : list Z)
    (len byteId : Z) :
  1 < len ->
  read bytes 0 = Some byteId ->
  checkSumsAreEqual bytes len = Some true ->
  ~ (byteIdGetPacketNumber byteId = 0 /\ previousPacketNumber (radio w) = 0) ->
  ~ (0 < byteIdGetPacketNumber byteId /\ previousPacketNumber (radio w) = 0) ->
  previousPacketNumber (radio w) - byteIdGetPacketNumber byteId <> 1 ->
  exists w',
    RFduinoGZLL_onReceive device rssi bytes len w = Done tt w'
    /\ bufferPositionWriteRadio (radio w') = 0
    /\ previousPacketNumber (radio w') = 0
    /\ radioOut (board w')
       = radioOut (board w)
         ++ [replyOf (isHost (radio w)) device (to_char (Z.land ORPM_PACKET_MISSED 0xFF))]
    /\ bufferRadio (radio w') = bufferRadio (radio w)
    /\ bufferStreamPackets (radio w') = bufferStreamPackets (radio w)
    /\ bufferSerial (radio w') = bufferSerial (radio w).
Proof.
  intros Hlen Hid Hsum Hsingle Hfirst Hnext.
  assert (Esingle : (byteIdGetPacketNumber byteId =? 0)
                    && (previousPacketNumber (radio w) =? 0) = false)
    by (apply andb_false_iff; lia).
  assert (Efirst : (0 <? byteIdGetPacketNumber byteId)
                   && (previousPacketNumber (radio w) =? 0) = false)
    by (apply andb_false_iff; lia).
  assert (Enext : (previousPacketNumber (radio w) - byteIdGetPacketNumber byteId =? 1)
                  = false) by lia.
  unfold RFduinoGZLL_onReceive, onReceive_packet.
  replace (len =? 1) with false by lia. replace (1 <? len) with true by lia.
  rewrite Hid, Hsum.
  destruct (isHost (radio w)) eqn:Hhost, (verbosePrintouts (radio w)) eqn:Hverbose;
    open_world w; run; rewrite ?Esingle, ?Efirst, ?Enext; run;
    rewrite bytes_of_one; run;
    (eexists; split; [reflexivity|]); repeat split.
Qed.

Lemma missed_packet_rejected_witness :
  exists w',
    RFduinoGZLL_onReceive (header := sampleHeader) 0 0 [9; 7] 2 midPageWorld = Done tt w'
    /\ bufferPositionWriteRadio (radio w') = 0
    /\ previousPacketNumber (radio w') = 0
    /\ radioOut (board w') = [SendToDevice 0 [2]]
    /\ bufferRadio (radio w') = bufferRadio (radio midPageWorld)
    /\ bufferStreamPackets (radio w') = bufferStreamPackets (radio midPageWorld)
    /\ bufferSerial (radio w') = bufferSerial (radio midPageWorld).
Proof.
  apply (missed_packet_rejected (header := sampleHeader) midPageWorld 0 0 [9; 7] 2 9).
  - lia.
  - reflexivity.
  - reflexivity.
  - vm_compute. intros [Hnumber _]. discriminate Hnumber.
  - vm_compute. intros [_ Hprevious]. discriminate Hprevious.
  - vm_compute. discriminate.
Defined.

(** ** A flipped bit in the payload *)

Lemma sumZ_cons (a : Z) (l : list Z) : sumZ (a :: l) = a + sumZ l.
Proof. reflexivity. Qed.

Lemma sumZ_insert (l : list Z) :
  forall (i : nat) (x y : Z), l !! i = Some x -> sumZ (<[i := y]> l) = sumZ l - x + y.
Proof.
  induction l as [|a l IH]; intros i x y Hlook; [discriminate|].
  destruct i as [|i].
  - injection Hlook as ->.
    change (<[0%nat := y]> (x :: l)) with (y :: l). rewrite !sumZ_cons. lia.
  - change (<[S i := y]> (a :: l)) with (a :: <[i := y]> l).
    rewrite !sumZ_cons, (IH i x y Hlook). lia.
Qed.

Lemma flipBit_low_mod_8 (x k : Z) : 0 <= k < 3 -> flipBit x k mod 8 <> x mod 8.
Proof.
  intros Hk Heq. unfold flipBit in Heq. change 8 with (2 ^ 3) in Heq.
  assert (Hbit : Z.testbit (Z.lxor x (2 ^ k) mod 2 ^ 3) k = Z.testbit (x mod 2 ^ 3) k)
    by (rewrite Heq; reflexivity).
  rewrite !Z.mod_pow2_bits_low in Hbit by lia.
  rewrite Z.lxor_spec, Z.pow2_bits_true in Hbit by lia.
  destruct (Z.testbit x k); discriminate Hbit.
Qed.

(** A flip of one of the three low bits of a payload byte changes the check
    sum: the packet no longer passes [checkSumsAreEqual]. *)
Lemma checkSumsAreEqual_flipped (original : list Z) (len : Z) (j : nat) (x k : Z) :
  len = Z.of_nat (length original) -> 1 < len <= 32 ->
  checkSumsAreEqual original len = Some true ->
  (1 <= j)%nat -> original !! j = Some x -> 0 <= k < 3 ->
  checkSumsAreEqual (<[j := flipBit x k]> original) len = Some false.
Proof.
  intros Hlen Hrange Hvalid Hj Hlook Hk.
  destruct original as [|byteId payload]; [discriminate|].
  destruct j as [|j]; [lia|]. cbn in Hlen, Hlook.
  change (<[S j := flipBit x k]> (byteId :: payload))
    with (byteId :: <[j := flipBit x k]> payload).
  unfold checkSumsAreEqual in *.
  rewrite checkSumMake_some in Hvalid by lia.
  rewrite checkSumMake_some by (rewrite ?length_insert; lia).
  rewrite checkSum_mod_8 in *.
  injection Hvalid as Hvalid. apply Z.eqb_eq in Hvalid.
  f_equal. apply Z.eqb_neq. rewrite Hvalid.
  replace (Z.to_nat (len - 1)) with (length payload) by lia.
  rewrite !take_ge by (rewrite ?length_insert; lia).
  rewrite (sumZ_insert payload j x _ Hlook).
  pose proof (flipBit_low_mod_8 x k Hk) as Hflip.
  revert Hflip. generalize (flipBit x k) (sumZ payload). intros x' total Hflip Heq.
  apply Hflip. clear - Heq. Z.div_mod_to_equations. lia.
Qed.


(** C4, as the code has it: when one of the three low bits (bits 0 to 2) of
    one payload byte of a packet with a good check sum is flipped, the delegate
    replies with the code [ORPM_PACKET_BAD_CHECK_SUM] and leaves
    [previousPacketNumber], [bufferRadio] with its counters and flags, and the
    stream packets as they were. *)
Theorem flipped_low_bit_rejected {header : Header} (w : World) (device rssi : Z)
    (original : list Z) (len : Z) (j : nat) (x k : Z) :
  len = Z.of_nat (length original) -> 1 < len <= 32 ->
  checkSumsAreEqual original len = Some true ->
  (1 <= j)%nat -> original !! j = Some x -> 0 <= k < 3 ->
  exists w',
    RFduinoGZLL_onReceive device rssi (<[j := flipBit x k]> original) len w = Done tt w'
    /\ radioOut (board w')
       = radioOut (board w)
         ++ [replyOf (isHost (radio w)) device
               (to_char (Z.land ORPM_PACKET_BAD_CHECK_SUM 0xFF))]
    /\ previousPacketNumber (radio w') = previousPacketNumber (radio w)
    /\ bufferRadio (radio w') = bufferRadio (radio w)
    /\ bufferPositionWriteRadio (radio w') = bufferPositionWriteRadio (radio w)
    /\ bufferPositionReadRadio (radio w') = bufferPositionReadRadio (radio w)
    /\ bufferPacketsReceived (radio w') = bufferPacketsReceived (radio w)
    /\ bufferPacketsToReceive (radio w') = bufferPacketsToReceive (radio w)
    /\ isTheHostsRadioBufferFilledWithAllThePacketsFromTheDevice (radio w')
       = isTheHostsRadioBufferFilledWithAllThePacketsFromTheDevice (radio w)
    /\ isTheDevicesRadioBufferFilledWithAllThePacketsFromTheHost (radio w')
       = isTheDevicesRadioBufferFilledWithAllThePacketsFromTheHost (radio w)
    /\ bufferStreamPackets (radio w') = bufferStreamPackets (radio w)
    /\ currentPacketBufferStreamPacket (radio w')
       = currentPacketBufferStreamPacket (radio w).
Proof.
  intros Hlen Hrange Hvalid Hj Hlook Hk.
  pose proof (checkSumsAreEqual_flipped original len j x k
                Hlen Hrange Hvalid Hj Hlook Hk) as Hbad.
  destruct original as [|byteId payload]; [discriminate|].
  destruct j as [|j]; [lia|].
  change (<[S j := flipBit x k]> (byteId :: payload))
    with (byteId :: <[j := flipBit x k]> payload) in *.
  unfold RFduinoGZLL_onReceive, onReceive_packet.
  replace (len =? 1) with false by lia. replace (1 <? len) with true by lia.
  rewrite Hbad.
  change (read (byteId :: <[j := flipBit x k]> payload) 0) with (Some byteId).
  destruct (isHost (radio w)) eqn:Hhost, (verbosePrintouts (radio w)) eqn:Hverbose;
    open_world w; run; rewrite bytes_of_one; run;
    (eexists; split; [reflexivity|]); repeat split.
Qed.

Lemma flipped_low_bit_rejected_witness :
  exists w',
    RFduinoGZLL_onReceive (header := sampleHeader) 0 0
      (<[1%nat := flipBit 7 2]> [9; 7]) 2 midPageWorld = Done tt w'
    /\ radioOut (board w') = [SendToDevice 0 [1]]
    /\ previousPacketNumber (radio w') = 3
    /\ bufferRadio (radio w') = bufferRadio (radio midPageWorld)
    /\ bufferPositionWriteRadio (radio w') = 0
    /\ bufferPositionReadRadio (radio w') = 0
    /\ bufferPacketsReceived (radio w') = 0
    /\ bufferPacketsToReceive (radio w') = 0
    /\ isTheHostsRadioBufferFilledWithAllThePacketsFromTheDevice (radio w') = false
    /\ isTheDevicesRadioBufferFilledWithAllThePacketsFromTheHost (radio w') = false
    /\ bufferStreamPackets (radio w') = bufferStreamPackets (radio midPageWorld)
    /\ currentPacketBufferStreamPacket (radio w') = Some 0%nat.
Proof.
  apply (flipped_low_bit_rejected (header := sampleHeader) midPageWorld 0 0 [9; 7] 2 1 7 2).
  - reflexivity.
  - lia.
  - reflexivity.
  - lia.
  - reflexivity.
  - lia.
Defined.

(** C4, as the claim has it, fails for the bits the three bit check sum does
    not see: with bit 3 of the payload byte of the good packet [[0; 0]]
    flipped, the packet still passes, the Host sends no reply and takes the
    byte into [bufferRadio]. *)
Lemma flipped_high_bit_accepted :
  checkSumsAreEqual [0; 0] 2 = Some true
  /\ <[1%nat := flipBit 0 3]> [0; 0] = [0; 8]
  /\ exists w',
       RFduinoGZLL_onReceive (header := sampleHeader) 0 0 [0; 8] 2 cleanHost = Done tt w'
       /\ radioOut (board w') = []
       /\ bufferPositionWriteRadio (radio w') = 1
       /\ bufferRadio (radio w') !! 0%nat = Some 8
       /\ bufferPositionWriteRadio (radio cleanHost) = 0.
Proof.
  split; [reflexivity|]. split; [reflexivity|].
  eexists. split; [vm_compute; reflexivity|]. repeat split.
Qed.

(** * The ingestion pass and the stream packet detector *)

(** ** Cleaning a packet array *)

Lemma read_middle {A} (pre l : list A) (p : A) :
  read (pre ++ p :: l) (Z.of_nat (length pre)) = Some p.
Proof.
  unfold read. rewrite (proj2 (Z.ltb_ge _ _)) by lia.
  rewrite Nat2Z.id. apply list_lookup_middle. reflexivity.
Qed.

Lemma write_middle {A} (pre l : list A) (p x : A) :
  write (pre ++ p :: l) (Z.of_nat (length pre)) x = Some (pre ++ x :: l).
Proof.
  unfold write. rewrite length_app. cbn [length].
  rewrite (proj2 (Z.leb_le _ _)), (proj2 (Z.ltb_lt _ _)) by lia. cbn [andb].
  rewrite Nat2Z.id. f_equal.
  rewrite <- (Nat.add_0_r (length pre)) at 1. rewrite insert_app_r. reflexivity.
Qed.

Lemma for_each_map {A} (f : A -> A) (n : nat) :
  forall pre l, (n <= length l)%nat ->
    for_each n (Z.of_nat (length pre))
      (fun i a => match read a i with Some p => write a i (f p) | None => None end)
      (pre ++ l)
    = Some (pre ++ map f (take n l) ++ drop n l).
Proof.
  induction n as [|n IH]; intros pre l Hn.
  - reflexivity.
  - destruct l as [|p l]; [simpl in Hn; lia|].
    cbn [for_each]. rewrite read_middle, write_middle.
    replace (Z.of_nat (length pre) + 1) with (Z.of_nat (length (pre ++ [f p])))
      by (rewrite length_app; simpl; lia).
    replace (pre ++ f p :: l) with ((pre ++ [f p]) ++ l) by (rewrite <- app_assoc; reflexivity).
    rewrite IH by (simpl in Hn; lia).
    rewrite <- app_assoc. reflexivity.
Qed.

Lemma bufferCleanPacketBuffer_some (a : list PacketBuffer) (n : Z) :
  (Z.to_nat n <= length a)%nat ->
  bufferCleanPacketBuffer a n
  = Some (map (cleanIt 1) (take (Z.to_nat n) a) ++ drop (Z.to_nat n) a).
Proof.
  intros Hn. unfold bufferCleanPacketBuffer.
  apply (for_each_map (cleanIt 1) (Z.to_nat n) [] a Hn).
Qed.



(** ** Runs with a postcondition *)

Lemma runsTo_ret {A} (a : A) w Q : Q a w -> runsTo (ret a) w Q.
Proof. intros HQ. exists a, w. split; [reflexivity | exact HQ]. Qed.

Lemma runsTo_bind {A B} (m : M A) (k : A -> M B) w Q :
  runsTo m w (fun a w' => runsTo (k a) w' Q) -> runsTo (bind m k) w Q.
Proof.
  intros (a & w' & Hm & b & w'' & Hk & HQ). exists b, w''. split; [|exact HQ].
  unfold bind. rewrite Hm. exact Hk.
Qed.

Lemma runsTo_getRadio {A} (f : Radio -> A) w Q : Q (f (radio w)) w -> runsTo (getRadio f) w Q.
Proof. intros HQ. eexists _, _. split; [reflexivity | exact HQ]. Qed.

Lemma runsTo_setRadio (f : Radio -> Radio) w Q :
  Q tt {| radio := f (radio w); board := board w |} -> runsTo (setRadio f) w Q.
Proof. intros HQ. eexists _, _. split; [reflexivity | exact HQ]. Qed.

Lemma runsTo_getBoard {A} (f : Board -> A) w Q : Q (f (board w)) w -> runsTo (getBoard f) w Q.
Proof. intros HQ. eexists _, _. split; [reflexivity | exact HQ]. Qed.

Lemma runsTo_setBoard (f : Board -> Board) w Q :
  Q tt {| radio := radio w; board := f (board w) |} -> runsTo (setBoard f) w Q.
Proof. intros HQ. eexists _, _. split; [reflexivity | exact HQ]. Qed.

Lemma runsTo_access {A} (o : option A) (a : A) w Q :
  o = Some a -> Q a w -> runsTo (access o) w Q.
Proof. intros -> HQ. eexists _, _. split; [reflexivity | exact HQ]. Qed.


(** Reduces the field reads of updated records. *)
Ltac fields := cbn
    [data set_data positionRead set_positionRead positionWrite set_positionWrite
     packetBuffer set_packetBuffer numberOfPacketsToSend set_numberOfPacketsToSend
     numberOfPacketsSent set_numberOfPacketsSent gotHead set_gotHead readyForLaunch
     set_readyForLaunch typeByte set_typeByte streamData set_streamData bytesIn
     set_bytesIn isHost isDevice verbosePrintouts debugMode radioChannel
     set_radioChannel previousRadioChannel set_previousRadioChannel bufferSerial
     set_bufferSerial currentPacketBufferSerial set_currentPacketBufferSerial
     bufferStreamPackets set_bufferStreamPackets currentPacketBufferStreamPacket
     set_currentPacketBufferStreamPacket streamPacketBuffer set_streamPacketBuffer
     bufferRadio set_bufferRadio bufferPacketsReceived set_bufferPacketsReceived
     bufferPacketsToReceive set_bufferPacketsToReceive bufferPositionReadRadio
     set_bufferPositionReadRadio bufferPositionWriteRadio set_bufferPositionWriteRadio
     isTheDevicesRadioBufferFilledWithAllThePacketsFromTheHost
     set_isTheDevicesRadioBufferFilledWithAllThePacketsFromTheHost
     isTheHostsRadioBufferFilledWithAllThePacketsFromTheDevice
     set_isTheHostsRadioBufferFilledWithAllThePacketsFromTheDevice previousPacketNumber
     set_previousPacketNumber isWaitingForNewChannelNumber
     set_isWaitingForNewChannelNumber isWaitingForNewChannelNumberConfirmation
     set_isWaitingForNewChannelNumberConfirmation lastTimeHostHeardFromDevice
     set_lastTimeHostHeardFromDevice lastTimeNewSerialDataWasAvailable
     set_lastTimeNewSerialDataWasAvailable timeOfLastPoll set_timeOfLastPoll
     timeWeGot0xFXFromPic set_timeWeGot0xFXFromPic serialIn set_serialIn serialOut
     set_serialOut radioOut set_radioOut gzllChannel set_gzllChannel flashWord
     set_flashWord flashPageEraseRc flashWriteRc millis set_millis micros set_micros
     radio set_radio board set_board fst snd].

(** One step of a run, by the rule for the command at its head. *)
Ltac wp_step :=
  lazymatch goal with
  | |- runsTo (bind _ _) _ _ => apply runsTo_bind
  | |- runsTo (ret _) _ _ => apply runsTo_ret
  | |- runsTo (getRadio _) _ _ => apply runsTo_getRadio
  | |- runsTo (setRadio _) _ _ => apply runsTo_setRadio
  | |- runsTo (getBoard _) _ _ => apply runsTo_getBoard
  | |- runsTo (setBoard _) _ _ => apply runsTo_setBoard
  | |- runsTo (when _ _) _ _ => unfold when
  | |- runsTo (setSerial _) _ _ => unfold setSerial
  | |- runsTo (setStream _) _ _ => unfold setStream
  | |- runsTo (storeSerialPacket _ _) _ _ => unfold storeSerialPacket
  | |- runsTo (Serial_out _) _ _ => unfold Serial_out
  | |- runsTo (Serial_print _) _ _ => unfold Serial_print
  | |- runsTo (Serial_printChar _) _ _ => unfold Serial_printChar
  | |- runsTo (Radio_out _) _ _ => unfold Radio_out
  | |- runsTo (sendToHost _ _) _ _ => unfold sendToHost
  | |- runsTo (pollRefresh) _ _ => unfold pollRefresh
  | |- runsTo (match Some _ with _ => _ end) _ _ => cbv beta iota
  | |- runsTo (if true then _ else _) _ _ => cbv beta iota
  | |- runsTo (if false then _ else _) _ _ => cbv beta iota
  end; fields.
Ltac wp := repeat first [wp_step | progress cbv beta iota].

Section Fetch.

Context {header : Header}.

Lemma runsTo_bufferCleanSerial (n : Z) (w : World) Q :
  (Z.to_nat n <= length (packetBuffer (bufferSerial (radio w))))%nat ->
  Q tt {| radio :=
            set_previousPacketNumber 0
              (set_currentPacketBufferSerial (Some 0%nat)
                 (set_bufferSerial
                    {| packetBuffer :=
                         map (cleanIt 1)
                           (take (Z.to_nat n) (packetBuffer (bufferSerial (radio w))))
                         ++ drop (Z.to_nat n) (packetBuffer (bufferSerial (radio w)));
                       numberOfPacketsToSend := 0;
                       numberOfPacketsSent := 0 |}
                    (radio w)));
          board := board w |} ->
  runsTo (bufferCleanSerial n) w Q.
Proof.
  intros Hn HQ. unfold bufferCleanSerial, bufferCleanBuffer. wp.
  eapply runsTo_access.
  { rewrite (bufferCleanPacketBuffer_some _ n Hn). reflexivity. }
  wp. exact HQ.
Qed.



































End Fetch.




(** * Where the code leaves the claims *)

(** C1 fails on the Host: with the one byte command [OPENBCI_HOST_CHANNEL_QUERY]
    waiting in [bufferSerial] (one packet to send, none sent, the invariant
    holds), a null byte acknowledgement makes the delegate answer the query,
    clean [bufferSerial] and then count the packet as sent: it returns with
    [numberOfPacketsToSend = 0] and [numberOfPacketsSent = 1]. *)
Theorem channel_query_breaks_counters :
  countersOk (header := sampleHeader) (bufferSerial (radio hostWithQuery))
  /\ exists w',
       RFduinoGZLL_onReceive (header := sampleHeader) 0 0 [] 0 hostWithQuery = Done tt w'
       /\ numberOfPacketsToSend (bufferSerial (radio w')) = 0
       /\ numberOfPacketsSent (bufferSerial (radio w')) = 1
       /\ serialOut (board w') = [SerialWrite 25]
       /\ ~ countersOk (header := sampleHeader) (bufferSerial (radio w')).
Proof.
  split.
  - vm_compute. repeat split; discriminate.
  - eexists. split; [vm_compute; reflexivity|].
    split; [reflexivity|]. split; [reflexivity|]. split; [reflexivity|].
    intros (_ & Hsent & _). vm_compute in Hsent. apply Hsent. reflexivity.
Qed.

(** C1, the control codes on clean buffers: [ORPM_PACKET_BAD_CHECK_SUM] takes
    [numberOfPacketsSent] to -1 and the delegate then reads the packet before
    the first one; [ORPM_PACKET_MISSED] makes it build a byteId for a packet
    with no data.  Neither run returns. *)
Lemma control_codes_on_clean_buffers :
  (exists w',
      RFduinoGZLL_onReceive (header := sampleHeader) 0 0 [0x01] 1 cleanHost = Fault w'
      /\ numberOfPacketsSent (bufferSerial (radio w')) = -1)
  /\ (exists w',
         RFduinoGZLL_onReceive (header := sampleHeader) 0 0 [0x02] 1 cleanHost = Fault w').
Proof.
  split; eexists; [split|]; vm_compute; reflexivity.
Qed.

(** C3 fails at the last packet of the buffer: with four packets, 94 bytes
    need four packets of 31, but the pass takes the fourth packet for an
    overflow and leaves no packet to send. *)
Theorem last_packet_overflows :
  31 < 94 <= 31 * OPENBCI_MAX_NUMBER_OF_BUFFERS (Header := sampleHeader)
  /\ (94 + 30) / 31 = 4
  /\ exists w',
       bufferSerialFetch (header := sampleHeader) (hostWithInput 94) = Done tt w'
       /\ numberOfPacketsToSend (bufferSerial (radio w')) = 0
       /\ payloadsOf (bufferSerial (radio w')) = []
       /\ serialOut (board w') = [SerialPrint "Input too large!$$$"].
Proof.
  split; [cbn; lia|]. split; [reflexivity|].
  eexists. split; [vm_compute; reflexivity|]. repeat split.
Qed.

(** With one byte less the claim of C3 holds: three packets to send, and
    their payloads are the 93 bytes. *)
Lemma three_packets_fit :
  exists w',
    bufferSerialFetch (header := sampleHeader) (hostWithInput 93) = Done tt w'
    /\ numberOfPacketsToSend (bufferSerial (radio w')) = (93 + 30) / 31
    /\ payloadsOf (bufferSerial (radio w')) = ramp 93.
Proof.
  eexists. split; [vm_compute; reflexivity|]. split; vm_compute; reflexivity.
Qed.

(** C6 fails: 125 bytes are more than four packets hold.  The overflow is
    signalled once, but [bufferCleanSerial] points the current packet back to
    the first packet right after it was set to null, so the bytes after the
    overflow are stored again: the pass ends with one packet to send and a
    current packet. *)
Theorem overflow_keeps_taking_bytes :
  31 * OPENBCI_MAX_NUMBER_OF_BUFFERS (Header := sampleHeader) < 125
  /\ exists w',
       bufferSerialFetch (header := sampleHeader) (hostWithInput 125) = Done tt w'
       /\ serialOut (board w') = [SerialPrint "Input too large!$$$"]
       /\ numberOfPacketsToSend (bufferSerial (radio w')) = 1
       /\ currentPacketBufferSerial (radio w') = Some 1%nat
       /\ payloadOf <$> (packetBuffer (bufferSerial (radio w')) !! 0%nat)
          = Some (take 31 (drop 93 (ramp 125))).
Proof.
  split; [cbn; lia|].
  eexists. split; [vm_compute; reflexivity|]. repeat split.
Qed.

(** C6, a longer input: with 218 bytes the Device signals the overflow twice
    in one pass. *)
Lemma overflow_twice :
  exists w',
    bufferSerialFetch (header := sampleHeader) (deviceWithInput 218) = Done tt w'
    /\ radioOut (board w') = [SendToHost [0x04]; SendToHost [0x04]]
    /\ serialOut (board w') = [SerialPrintChar 118; SerialPrintChar 118].
Proof.
  eexists. split; [vm_compute; reflexivity|]. repeat split.
Qed.

(** C10 holds for one pending stream packet: the start byte, the 31 payload
    bytes, the stop byte made from the byteId, and a clean buffer. *)
Lemma one_stream_packet_written :
  numberOfPacketsToSend (bufferStreamPackets (radio hostWithOneStreamPacket)) = 1
  /\ exists w',
       writeTheHostsStreamPacketBufferToThePC (header := sampleHeader)
         hostWithOneStreamPacket = Done tt w'
       /\ serialOut (board w') = streamFrameOf (header := sampleHeader) streamPacketA
       /\ numberOfPacketsToSend (bufferStreamPackets (radio w')) = 0
       /\ numberOfPacketsSent (bufferStreamPackets (radio w')) = 0.
Proof.
  split; [reflexivity|].
  eexists. split; [vm_compute; reflexivity|]. repeat split.
Qed.

(** C10 fails for the second pending stream packet: the call is made on the
    [data] array of the first packet moved on by one byte, not on the second
    packet.  After the frame of the first packet the Host writes the start
    byte and bytes 2 to 31 of the first packet, and then reads past the end
    of that array; nothing of the second packet is written. *)
Theorem second_stream_packet_not_written :
  numberOfPacketsToSend (bufferStreamPackets (radio hostWithTwoStreamPackets)) = 2
  /\ numberOfPacketsSent (bufferStreamPackets (radio hostWithTwoStreamPackets)) = 0
  /\ data <$> (packetBuffer (bufferStreamPackets (radio hostWithTwoStreamPackets)) !! 1%nat)
     = Some streamPacketB
  /\ exists w',
       writeTheHostsStreamPacketBufferToThePC (header := sampleHeader)
         hostWithTwoStreamPackets = Fault w'
       /\ serialOut (board w')
          = streamFrameOf (header := sampleHeader) streamPacketA
            ++ SerialWrite 0xA0 :: map SerialWrite (take 30 (drop 2 streamPacketA))
       /\ serialOut (board w')
          <> streamFrameOf (header := sampleHeader) streamPacketA
             ++ streamFrameOf (header := sampleHeader) streamPacketB.
Proof.
  split; [reflexivity|]. split; [reflexivity|]. split; [reflexivity|].
  eexists. split; [vm_compute; reflexivity|].
  split; [reflexivity|]. vm_compute. discriminate.
Qed.

(** * Further properties of the code *)

(** * More of the codec *)

Lemma stop_byte_table :
  forallb (fun k => to_char (Z.lor k 0xC0) =? 0xC0 + k) (ramp 16) = true.
Proof. vm_compute. reflexivity. Qed.

(** X1: The stop byte the Host writes after a stream packet is [0xC0] plus the
    four bits of the stream packet type the byteId was made with. *)
Theorem stop_byte_carries_stream_type (t : Z) (d : list Z) (len byteId : Z) :
  1 <= len <= Z.of_nat (length d) -> len < 2 ^ 31 ->
  byteIdMake true t (Some d) len = Some byteId ->
  outputGetStopByteFromByteId byteId = 0xC0 + t mod 16.
Proof.
  intros Hlen Hint Hmake.
  pose proof (checkSumMake_some d len Hlen Hint) as Hsum.
  pose proof (checkSumMake_range _ _ _ Hsum) as Hc.
  rewrite (byteIdMake_byteIdOf true t _ _ _ Hsum) in Hmake. injection Hmake as <-.
  pose proof (Z.mod_pos_bound t 16 ltac:(lia)) as Ht.
  destruct (byteIdOf_fields true (t mod 16) _ Ht Hc) as (_ & _ & Htype & _).
  unfold outputGetStopByteFromByteId. rewrite Htype.
  apply Z.eqb_eq. exact (forallb_ramp _ 16 stop_byte_table (t mod 16) Ht).
Qed.

Lemma stop_byte_carries_stream_type_witness :
  outputGetStopByteFromByteId 0xBA = 0xC0 + 0xF7 mod 16.
Proof.
  apply (stop_byte_carries_stream_type 0xF7 [1; 2; 3] 3 0xBA); [simpl; lia | lia | reflexivity].
Defined.

Lemma sumZ_app (l1 l2 : list Z) : sumZ (l1 ++ l2) = sumZ l1 + sumZ l2.
Proof.
  induction l1 as [|a l1 IH]; [reflexivity|].
  cbn [app]. rewrite !sumZ_cons, IH. lia.
Qed.

Lemma sumZ_Permutation (l1 l2 : list Z) : Permutation l1 l2 -> sumZ l1 = sumZ l2.
Proof.
  induction 1 as [|x l l' _ IH|x y l|l l' l'' _ IH1 _ IH2].
  - reflexivity.
  - rewrite !sumZ_cons, IH. reflexivity.
  - rewrite !sumZ_cons. lia.
  - congruence.
Qed.

(** X2: The check sum does not see the order of the bytes: a packet whose payload
    bytes were reordered is accepted or refused like the packet itself. *)
Theorem check_sum_ignores_order (byteId : Z) (payload payload' : list Z) :
  Permutation payload payload' ->
  (1 <= length payload <= 31)%nat ->
  checkSumsAreEqual (byteId :: payload') (Z.of_nat (length payload') + 1)
  = checkSumsAreEqual (byteId :: payload) (Z.of_nat (length payload) + 1).
Proof.
  intros Hperm Hlen.
  pose proof (Permutation_length Hperm) as Hsame.
  unfold checkSumsAreEqual.
  replace (Z.of_nat (length payload') + 1 - 1) with (Z.of_nat (length payload')) by lia.
  replace (Z.of_nat (length payload) + 1 - 1) with (Z.of_nat (length payload)) by lia.
  rewrite !checkSumMake_some by lia.
  rewrite !Nat2Z.id, !firstn_all, !checkSum_mod_8.
  rewrite (sumZ_Permutation _ _ Hperm). reflexivity.
Qed.

Lemma check_sum_ignores_order_witness :
  checkSumsAreEqual (5 :: [3; 2; 1]) (Z.of_nat (length [3; 2; 1]) + 1)
  = checkSumsAreEqual (5 :: [1; 2; 3]) (Z.of_nat (length [1; 2; 3]) + 1).
Proof.
  apply (check_sum_ignores_order 5 [1; 2; 3] [3; 2; 1]).
  - apply Permutation_rev.
  - simpl. lia.
Defined.

(** X3: Only the four low bits of the packet number go into the byteId: packet
    numbers that differ by 16 give the same byteId. *)
Theorem packet_number_wraps_at_16 (isStream : bool) (packetNumber : Z)
    (d : option (list Z)) (len : Z) :
  byteIdMake isStream (packetNumber + 16) d len = byteIdMake isStream packetNumber d len.
Proof.
  unfold byteIdMake. rewrite !land_15.
  replace ((packetNumber + 16) mod 16) with (packetNumber mod 16); [reflexivity|].
  rewrite <- (Z_mod_plus_full packetNumber 1 16). f_equal.
Qed.

(** * Cleaning *)

Lemma for_each_zero (n : nat) :
  forall pre l : list Z,
    for_each n (Z.of_nat (length pre)) (fun i b => write b i 0) (pre ++ l)
    = if (n <=? length l)%nat then Some (pre ++ replicate n 0 ++ drop n l) else None.
Proof.
  induction n as [|n IH]; intros pre l.
  - reflexivity.
  - destruct l as [|x l].
    + cbn [for_each length Nat.leb]. unfold write. rewrite app_nil_r.
      rewrite (proj2 (Z.ltb_ge _ _)) by lia. rewrite andb_false_r. reflexivity.
    + cbn [for_each]. rewrite write_middle.
      replace (Z.of_nat (length pre) + 1) with (Z.of_nat (length (pre ++ [0])))
        by (rewrite length_app; simpl; lia).
      replace (pre ++ 0 :: l) with ((pre ++ [0]) ++ l) by (rewrite <- app_assoc; reflexivity).
      rewrite IH. cbn [length Nat.leb].
      destruct (n <=? length l)%nat; [|reflexivity].
      rewrite <- app_assoc. reflexivity.
Qed.

Lemma bufferCleanChar_result (buffer : list Z) (bufferLength : Z) :
  bufferCleanChar buffer bufferLength
  = if bufferLength <=? Z.of_nat (length buffer)
    then Some (replicate (Z.to_nat bufferLength) 0 ++ drop (Z.to_nat bufferLength) buffer)
    else None.
Proof.
  unfold bufferCleanChar.
  pose proof (for_each_zero (Z.to_nat bufferLength) [] buffer) as Hloop.
  cbn [length app] in Hloop. change (Z.of_nat 0) with 0 in Hloop. rewrite Hloop.
  destruct (Z.leb_spec bufferLength (Z.of_nat (length buffer))) as [Hin | Hout].
  - rewrite (proj2 (Nat.leb_le _ _)) by lia. reflexivity.
  - rewrite (proj2 (Nat.leb_gt _ _)) by lia. reflexivity.
Qed.

(** X4: [bufferCleanChar] writes [bufferLength] zeros from the start of the
    buffer and leaves the bytes after them; with a [bufferLength] that is
    larger than the array it writes outside the array. *)
Theorem bufferCleanChar_zeroes (buffer : list Z) (bufferLength : Z) :
  bufferCleanChar buffer bufferLength
  = if bufferLength <=? Z.of_nat (length buffer)
    then Some (replicate (Z.to_nat bufferLength) 0 ++ drop (Z.to_nat bufferLength) buffer)
    else None.
Proof. exact (bufferCleanChar_result buffer bufferLength). Qed.



Lemma bufferCleanCompletePacketBuffer_some (a : list PacketBuffer) (n : Z) :
  (Z.to_nat n <= length a)%nat ->
  bufferCleanCompletePacketBuffer a n
  = Some (map (cleanIt 0) (take (Z.to_nat n) a) ++ drop (Z.to_nat n) a).
Proof.
  intros Hn. unfold bufferCleanCompletePacketBuffer.
  apply (for_each_map (cleanIt 0) (Z.to_nat n) [] a Hn).
Qed.

Lemma runsTo_bufferCleanStreamPackets {header : Header} (n : Z) (w : World) Q :
  (Z.to_nat n <= length (packetBuffer (bufferStreamPackets (radio w))))%nat ->
  Q tt {| radio :=
            set_currentPacketBufferStreamPacket (Some 0%nat)
              (set_bufferStreamPackets
                 {| packetBuffer :=
                      map (cleanIt 0)
                        (take (Z.to_nat n) (packetBuffer (bufferStreamPackets (radio w))))
                      ++ drop (Z.to_nat n) (packetBuffer (bufferStreamPackets (radio w)));
                    numberOfPacketsToSend := 0;
                    numberOfPacketsSent := 0 |}
                 (radio w));
          board := board w |} ->
  runsTo (bufferCleanStreamPackets n) w Q.
Proof.
  intros Hn HQ. unfold bufferCleanStreamPackets, bufferCleanCompleteBuffer. wp.
  eapply runsTo_access.
  { rewrite (bufferCleanCompletePacketBuffer_some _ n Hn). reflexivity. }
  wp. exact HQ.
Qed.

(** What cleaning does to the packet at index [j]. *)
Lemma cleaned_lookup (fresh : Z) (a : list PacketBuffer) (n j : nat) (p : PacketBuffer) :
  (n <= length a)%nat -> a !! j = Some p ->
  (map (cleanIt fresh) (take n a) ++ drop n a) !! j
  = Some (if decide (j < n)%nat then cleanIt fresh p else p).
Proof.
  intros Hn Hp. destruct (decide (j < n)%nat) as [Hlt | Hge].
  - rewrite lookup_app_l by (rewrite length_map, length_take; lia).
    rewrite list_lookup_fmap, lookup_take_lt by lia. rewrite Hp. reflexivity.
  - rewrite lookup_app_r by (rewrite length_map, length_take; lia).
    rewrite length_map, length_take, lookup_drop.
    replace (n + (j - n `min` length a))%nat with j by lia. exact Hp.
Qed.

(** X6: [bufferCleanSerial] and [bufferCleanStreamPackets] put the counters to
    zero and the current packet back to the first one; of the first
    [numberOfPacketsToClean] packets they reset the two positions (the write
    position to 1 in [bufferSerial], to 0 in [bufferStreamPackets]); they never
    erase a data byte and never touch a later packet. *)
Theorem cleaning_resets_positions_only {header : Header} (w : World) (n : Z) :
  0 <= n <= Z.of_nat (length (packetBuffer (bufferSerial (radio w)))) ->
  0 <= n <= Z.of_nat (length (packetBuffer (bufferStreamPackets (radio w)))) ->
  (exists w',
      bufferCleanSerial n w = Done tt w'
      /\ numberOfPacketsToSend (bufferSerial (radio w')) = 0
      /\ numberOfPacketsSent (bufferSerial (radio w')) = 0
      /\ currentPacketBufferSerial (radio w') = Some 0%nat
      /\ previousPacketNumber (radio w') = 0
      /\ forall (j : nat) (p : PacketBuffer),
           packetBuffer (bufferSerial (radio w)) !! j = Some p ->
           packetBuffer (bufferSerial (radio w')) !! j
           = Some (if decide (Z.of_nat j < n)
                   then {| data := data p; positionRead := 0; positionWrite := 1 |}
                   else p))
  /\ (exists w',
         bufferCleanStreamPackets n w = Done tt w'
         /\ numberOfPacketsToSend (bufferStreamPackets (radio w')) = 0
         /\ numberOfPacketsSent (bufferStreamPackets (radio w')) = 0
         /\ currentPacketBufferStreamPacket (radio w') = Some 0%nat
         /\ forall (j : nat) (p : PacketBuffer),
              packetBuffer (bufferStreamPackets (radio w)) !! j = Some p ->
              packetBuffer (bufferStreamPackets (radio w')) !! j
              = Some (if decide (Z.of_nat j < n)
                      then {| data := data p; positionRead := 0; positionWrite := 0 |}
                      else p)).
Proof.
  intros Hserial Hstream. split.
  - assert (Hrun : runsTo (bufferCleanSerial n) w (fun _ w' =>
      numberOfPacketsToSend (bufferSerial (radio w')) = 0
      /\ numberOfPacketsSent (bufferSerial (radio w')) = 0
      /\ currentPacketBufferSerial (radio w') = Some 0%nat
      /\ previousPacketNumber (radio w') = 0
      /\ packetBuffer (bufferSerial (radio w'))
         = map (cleanIt 1) (take (Z.to_nat n) (packetBuffer (bufferSerial (radio w))))
           ++ drop (Z.to_nat n) (packetBuffer (bufferSerial (radio w))))).
    { apply runsTo_bufferCleanSerial; [lia|]. fields. auto. }
    destruct Hrun as ([] & w' & Hrun & H1 & H2 & H3 & H4 & Hpackets).
    exists w'. repeat (split; [assumption|]).
    intros j p Hp. rewrite Hpackets, (cleaned_lookup 1 _ _ j p) by (lia || exact Hp).
    f_equal. destruct (decide (j < Z.to_nat n)%nat), (decide (Z.of_nat j < n));
      try lia; reflexivity.
  - assert (Hrun : runsTo (bufferCleanStreamPackets n) w (fun _ w' =>
      numberOfPacketsToSend (bufferStreamPackets (radio w')) = 0
      /\ numberOfPacketsSent (bufferStreamPackets (radio w')) = 0
      /\ currentPacketBufferStreamPacket (radio w') = Some 0%nat
      /\ packetBuffer (bufferStreamPackets (radio w'))
         = map (cleanIt 0) (take (Z.to_nat n) (packetBuffer (bufferStreamPackets (radio w))))
           ++ drop (Z.to_nat n) (packetBuffer (bufferStreamPackets (radio w))))).
    { apply runsTo_bufferCleanStreamPackets; [lia|]. fields. auto. }
    destruct Hrun as ([] & w' & Hrun & H1 & H2 & H3 & Hpackets).
    exists w'. repeat (split; [assumption|]).
    intros j p Hp. rewrite Hpackets, (cleaned_lookup 0 _ _ j p) by (lia || exact Hp).
    f_equal. destruct (decide (j < Z.to_nat n)%nat), (decide (Z.of_nat j < n));
      try lia; reflexivity.
Qed.

(** * More of the ingestion pass *)

(** X7: A pass over an empty serial port reads nothing, and still counts one
    packet to send when none was counted: [thereIsDataInSerialBuffer] then
    answers true although no byte was stored. *)
Theorem fetch_on_empty_port_counts_a_packet {header : Header} (w : World) :
  serialIn (board w) = [] ->
  numberOfPacketsToSend (bufferSerial (radio w)) = 0 ->
  numberOfPacketsSent (bufferSerial (radio w)) = 0 ->
  exists w',
    bufferSerialFetch w = Done tt w'
    /\ radio w'
       = set_bufferSerial (set_numberOfPacketsToSend 1 (bufferSerial (radio w))) (radio w)
    /\ board w' = board w
    /\ thereIsDataInSerialBuffer w' = Done true w'.
Proof.
  intros Hin HtoSend Hsent.
  unfold bufferSerialFetch, thereIsDataInSerialBuffer.
  eexists. split.
  - unfold bind, getRadio, getBoard, when, setSerial, setRadio.
    rewrite HtoSend. change (0 =? 0) with true. cbv beta iota.
    cbn [board set_radio]. rewrite Hin. reflexivity.
  - cbn [radio board set_radio]. split; [reflexivity|]. split; [reflexivity|].
    unfold getRadio. cbn [radio set_radio]. fields. rewrite Hsent. reflexivity.
Qed.



(** * The stream packet detector at the end of a frame *)




Section Detector.

Context {header : Header}.





End Detector.



Lemma runsTo_eq {A} (m : M A) (w : World) (a : A) (w' : World) :
  runsTo m w (fun a0 w0 => a0 = a /\ w0 = w') -> m w = Done a w'.
Proof. intros (a0 & w0 & Hrun & -> & ->). exact Hrun. Qed.

Lemma runsTo_fault_free {A} (m : M A) (w : World) (Q : A -> World -> Prop) :
  runsTo m w Q -> exists a w', m w = Done a w' /\ Q a w'.
Proof. intros H. exact H. Qed.

Ltac wp_more_step :=
  lazymatch goal with
  | |- runsTo (Serial_write _) _ _ => unfold Serial_write
  | |- runsTo (Serial_println _) _ _ => unfold Serial_println
  | |- runsTo (Serial_printInt _) _ _ => unfold Serial_printInt
  | |- runsTo (Serial_printlnInt _) _ _ => unfold Serial_printlnInt
  | |- runsTo (sendToDevice _ _ _) _ _ => unfold sendToDevice
  | |- runsTo (sendMsg _ _) _ _ => unfold sendMsg
  | |- runsTo (pollHost) _ _ => unfold pollHost
  | |- runsTo (setStreamPackets _) _ _ => unfold setStreamPackets
  | |- runsTo (getChannelNumber) _ _ => unfold getChannelNumber
  end; fields.
Ltac wp2 := repeat first [wp_step | wp_more_step | progress cbv beta iota].



Lemma runsTo_currentStreamPacket (w : World) (j : nat) (p : PacketBuffer)
    (Q : nat * PacketBuffer -> World -> Prop) :
  currentPacketBufferStreamPacket (radio w) = Some j ->
  packetBuffer (bufferStreamPackets (radio w)) !! j = Some p ->
  Q (j, p) w -> runsTo currentStreamPacket w Q.
Proof.
  intros Hcur Hp HQ. unfold currentStreamPacket. wp. rewrite Hcur. wp.
  eapply runsTo_access; [exact Hp|]. wp. exact HQ.
Qed.

Section StreamOnHost.

Context {header : Header}.


End StreamOnHost.







Section Flush.

Context {header : Header}.


End Flush.


Section ReceiveStream.

Context {header : Header}.




End ReceiveStream.


Section FlushOne.

Context {header : Header}.


End FlushOne.


(** * A stream frame from the board to the PC *)


Section Launch.

Context {header : Header}.



End Launch.


(** * Stream packets of one type in a row *)

Section Collide.

Context {header : Header}.


End Collide.


(** * What a run leaves alone *)

Section Keeps.

Variable R : World -> World -> Prop.
Hypothesis R_refl : forall w, R w w.
Hypothesis R_trans : forall w1 w2 w3, R w1 w2 -> R w2 w3 -> R w1 w3.












End Keeps.







(** * A page on its way *)



Section Sender.

Context {header : Header}.





End Sender.

(** * What the ingestion pass leaves alone *)





(** * The page the ingestion pass leaves *)


Section Page.

Context {header : Header}.






End Page.

(** * A page in the radio buffer *)



Section Receiver.

Context {header : Header}.



End Receiver.

(** * The whole page, and its way to the serial port *)


Section WholePage.

Context {header : Header}.


End WholePage.

(** * The radio buffer on its way out *)


Section RadioOut.

Context {header : Header}.


End RadioOut.

(** * A message from the board to the PC *)



(** * What the receive delegate leaves alone *)





(** * The channel *)

Section Channel.

Context {header : Header}.

(** [setChannelNumber] when the flash driver answers 0 twice. *)
Lemma setChannelNumber_done (w : World) (channelNumber : Z) :
  flashPageEraseRc (board w) = 0 -> flashWriteRc (board w) = 0 ->
  runsTo (setChannelNumber channelNumber) w (fun success w' =>
    success = true
    /\ w' = {| radio := radio w;
               board :=
                 set_serialOut
                   (serialOut (board w) ++ [SerialPrint "Channel Number Set$$$"; SerialPrintln])
                   (set_flashWord
                      (uint32 (if RFDUINOGZLL_CHANNEL_LIMIT_UPPER <? channelNumber
                               then RFDUINOGZLL_CHANNEL_LIMIT_UPPER else channelNumber))
                      (board w)) |}).
Proof.
  intros Herase Hwrite. unfold setChannelNumber, flashPageErase, flashWrite. wp2.
  rewrite Herase. change (0 =? 0) with true. wp2.
  change (0 =? 1) with false. change (0 =? 2) with false. wp2.
  rewrite Hwrite. change (0 =? 0) with true. wp2. change (0 =? 0) with true. wp2.
  split; [reflexivity|]. rewrite <- app_assoc. reflexivity.
Qed.

End Channel.

(** X27: When the flash driver reports success, [setChannelNumber] stores the
    channel number, cut down to [RFDUINOGZLL_CHANNEL_LIMIT_UPPER] when it is
    larger, in the flash word that [getChannelNumber] reads, returns true and
    prints "Channel Number Set$$$" on the serial port, on a Host and on a
    Device alike. *)
Theorem setChannelNumber_stores_the_clamped_channel {header : Header} (w : World)
    (channelNumber : Z) :
  flashPageEraseRc (board w) = 0 -> flashWriteRc (board w) = 0 ->
  0 <= channelNumber < 2 ^ 32 -> 0 <= RFDUINOGZLL_CHANNEL_LIMIT_UPPER < 2 ^ 32 ->
  exists w',
    setChannelNumber channelNumber w = Done true w'
    /\ getChannelNumber w' = Done (Z.min channelNumber RFDUINOGZLL_CHANNEL_LIMIT_UPPER) w'
    /\ serialOut (board w')
       = serialOut (board w) ++ [SerialPrint "Channel Number Set$$$"; SerialPrintln]
    /\ radio w' = radio w.
Proof.
  intros Herase Hwrite Hchannel Hupper.
  destruct (setChannelNumber_done w channelNumber Herase Hwrite)
    as (success & w' & Hrun & -> & ->).
  eexists. split; [exact Hrun|]. unfold getChannelNumber, getBoard. fields.
  split; [|split; reflexivity]. f_equal.
  destruct (Z.ltb_spec RFDUINOGZLL_CHANNEL_LIMIT_UPPER channelNumber);
    unfold uint32; rewrite Z.mod_small by lia; lia.
Qed.

Section Handshake.

Context {header : Header}.


End Handshake.




(** * Polls and acknowledgements *)

(** X30: A Device with nothing on its serial port polls the Host when more than
    [OPENBCI_POLL_TIME_DURATION_MS] have passed since the last poll: it sends
    one empty packet and restarts the poll timer, so that a second call at the
    same time sends nothing. *)
Theorem idle_device_polls_once_per_period {header : Header} {wiring : Wiring} (w : World) :
  serialIn (board w) = [] ->
  0 <= OPENBCI_POLL_TIME_DURATION_MS ->
  OPENBCI_POLL_TIME_DURATION_MS < uint32 (millis (board w) - timeOfLastPoll (radio w)) ->
  exists w1,
    didPicSendDeviceSerialData w = Done false w1
    /\ radioOut (board w1) = radioOut (board w) ++ [SendToHost []]
    /\ timeOfLastPoll (radio w1) = millis (board w)
    /\ didPicSendDeviceSerialData w1 = Done false w1.
Proof.
  intros Hin Hperiod Hdue.
  assert (Hrun : runsTo didPicSendDeviceSerialData w (fun answer w1 =>
            answer = false
            /\ w1 = {| radio := set_timeOfLastPoll (millis (board w)) (radio w);
                       board := set_radioOut (radioOut (board w) ++ [SendToHost []])
                                  (board w) |})).
  { unfold didPicSendDeviceSerialData, Serial_available, pollNow. wp2.
    rewrite Hin. change (0 <? Z.of_nat (length [])) with false. wp2.
    rewrite (proj2 (Z.ltb_lt _ _) Hdue). wp2. split; reflexivity. }
  destruct Hrun as (answer & w1 & Hrun & -> & ->).
  eexists. split; [exact Hrun|]. fields.
  split; [reflexivity|]. split; [reflexivity|].
  apply runsTo_eq.
  unfold didPicSendDeviceSerialData, Serial_available, pollNow. wp2.
  rewrite Hin. change (0 <? Z.of_nat (length [])) with false. wp2.
  rewrite Z.sub_diag. change (uint32 0) with 0.
  rewrite (proj2 (Z.ltb_ge _ _)) by lia. wp2. split; reflexivity.
Qed.

(** X21: While the serial port was not quiet for longer than
    [OPENBCI_MAX_SERIAL_TIMEOUT_MS], a Device that has packets to go sends
    nothing when an acknowledgement comes in and stays exactly as it is. *)
Theorem ack_waits_for_a_quiet_serial_port {header : Header} (w : World) (device rssi : Z) :
  isHost (radio w) = false ->
  isWaitingForNewChannelNumberConfirmation (radio w) = false ->
  numberOfPacketsSent (bufferSerial (radio w)) < numberOfPacketsToSend (bufferSerial (radio w)) ->
  millis (board w)
    <= uint32 (lastTimeNewSerialDataWasAvailable (radio w) + OPENBCI_MAX_SERIAL_TIMEOUT_MS) ->
  RFduinoGZLL_onReceive device rssi [] 0 w = Done tt w.
Proof.
  intros Hhost Hconfirm Hmore Htime. apply runsTo_eq.
  unfold RFduinoGZLL_onReceive. wp2. rewrite Hhost. wp2.
  change (0 =? 1) with false. change (1 <? 0) with false. cbv beta iota.
  unfold onReceive_ack. wp2. rewrite Hconfirm. wp2.
  unfold onReceive_moreToSend. wp2.
  rewrite (proj2 (Z.ltb_lt _ _) Hmore). wp2.
  unfold theLastTimeNewSerialDataWasAvailableWasLongEnough. wp2.
  rewrite (proj2 (Z.ltb_ge _ _) Htime). wp2. split; reflexivity.
Qed.

(** X22: The acknowledgement that comes in when every packet of the page was sent
    ends the page: nothing is sent, the counters of [bufferSerial] go to zero,
    the current packet is the first one again and the packets that were used
    have their write position back at 1. *)
Theorem ack_after_the_last_packet_ends_the_page {header : Header} (w : World)
    (device rssi : Z) :
  isHost (radio w) = false ->
  isWaitingForNewChannelNumberConfirmation (radio w) = false ->
  numberOfPacketsSent (bufferSerial (radio w)) = numberOfPacketsToSend (bufferSerial (radio w)) ->
  0 < numberOfPacketsToSend (bufferSerial (radio w))
    <= Z.of_nat (length (packetBuffer (bufferSerial (radio w)))) ->
  exists w',
    RFduinoGZLL_onReceive device rssi [] 0 w = Done tt w'
    /\ board w' = board w
    /\ numberOfPacketsToSend (bufferSerial (radio w')) = 0
    /\ numberOfPacketsSent (bufferSerial (radio w')) = 0
    /\ currentPacketBufferSerial (radio w') = Some 0%nat
    /\ forall (j : nat) (p : PacketBuffer),
         packetBuffer (bufferSerial (radio w)) !! j = Some p ->
         packetBuffer (bufferSerial (radio w')) !! j
         = Some (if decide (Z.of_nat j < numberOfPacketsToSend (bufferSerial (radio w)))
                 then {| data := data p; positionRead := 0; positionWrite := 1 |}
                 else p).
Proof.
  intros Hhost Hconfirm Hall Hsome.
  assert (Hrun : runsTo (RFduinoGZLL_onReceive device rssi [] 0) w (fun _ w' =>
    w' = {| radio :=
              set_previousPacketNumber 0
                (set_currentPacketBufferSerial (Some 0%nat)
                   (set_bufferSerial
                      {| packetBuffer :=
                           map (cleanIt 1)
                             (take (Z.to_nat (numberOfPacketsToSend (bufferSerial (radio w))))
                                (packetBuffer (bufferSerial (radio w))))
                           ++ drop (Z.to_nat (numberOfPacketsToSend (bufferSerial (radio w))))
                                (packetBuffer (bufferSerial (radio w)));
                         numberOfPacketsToSend := 0;
                         numberOfPacketsSent := 0 |}
                      (radio w)));
            board := board w |})).
  { unfold RFduinoGZLL_onReceive. wp2. rewrite Hhost. wp2.
    change (0 =? 1) with false. change (1 <? 0) with false. cbv beta iota.
    unfold onReceive_ack. wp2. rewrite Hconfirm. wp2.
    unfold onReceive_moreToSend. wp2. rewrite Hall.
    rewrite Z.ltb_irrefl, Z.eqb_refl.
    rewrite (proj2 (Z.eqb_neq _ 0)) by lia. cbn [andb negb]. wp2.
    apply runsTo_bufferCleanSerial; [lia|]. wp2. reflexivity. }
  destruct Hrun as ([] & w' & Hrun & ->).
  eexists. split; [exact Hrun|]. fields. repeat (split; [reflexivity|]).
  intros j p Hp. rewrite (cleaned_lookup 1 _ _ j p) by (lia || exact Hp).
  f_equal.
  destruct (decide (j < Z.to_nat (numberOfPacketsToSend (bufferSerial (radio w))))%nat),
    (decide (Z.of_nat j < numberOfPacketsToSend (bufferSerial (radio w))));
    try lia; reflexivity.
Qed.

(** * The end of the stream packet buffer *)

Lemma faultsTo_fault {A} (w : World) (Q : World -> Prop) : Q w -> faultsTo (@fault A) w Q.
Proof. intros HQ. exists w. split; [reflexivity | exact HQ]. Qed.

Lemma faultsTo_bind_now {A B} (m : M A) (k : A -> M B) (w : World) (Q : World -> Prop) :
  faultsTo m w Q -> faultsTo (bind m k) w Q.
Proof.
  intros (w' & Hm & HQ). exists w'. split; [|exact HQ]. unfold bind. rewrite Hm. reflexivity.
Qed.

Lemma faultsTo_bind_then {A B} (m : M A) (k : A -> M B) (w : World) (Q : World -> Prop) :
  runsTo m w (fun a w1 => faultsTo (k a) w1 Q) -> faultsTo (bind m k) w Q.
Proof.
  intros (a & w1 & Hm & w' & Hk & HQ). exists w'. split; [|exact HQ].
  unfold bind. rewrite Hm. exact Hk.
Qed.

(** X16: When the current stream packet is full and no further packet is left
    ([numberOfPacketsToSend + 1] reaches [OPENBCI_MAX_NUMBER_OF_BUFFERS]),
    [bufferAddStreamPacket] sets the current packet pointer to null at the
    first byte, stores nothing, and at the second byte reads the write
    position through the null pointer. *)
Theorem full_stream_buffer_reads_through_null {header : Header} (w : World)
    (bytes : list Z) (length : Z) (j : nat) (p : PacketBuffer) :
  currentPacketBufferStreamPacket (radio w) = Some j ->
  packetBuffer (bufferStreamPackets (radio w)) !! j = Some p ->
  32 <= positionWrite p ->
  0 < numberOfPacketsToSend (bufferStreamPackets (radio w)) ->
  OPENBCI_MAX_NUMBER_OF_BUFFERS <= numberOfPacketsToSend (bufferStreamPackets (radio w)) + 1 ->
  2 <= length ->
  exists w',
    bufferAddStreamPacket bytes length w = Fault w'
    /\ currentPacketBufferStreamPacket (radio w') = None
    /\ numberOfPacketsToSend (bufferStreamPackets (radio w'))
       = numberOfPacketsToSend (bufferStreamPackets (radio w)) + 1
    /\ packetBuffer (bufferStreamPackets (radio w'))
       = packetBuffer (bufferStreamPackets (radio w)).
Proof.
  intros Hcur Hp Hfull Hsome Hlast Hlength.
  unfold bufferAddStreamPacket, for_.
  replace (Z.to_nat (length - 0)) with (S (S (Z.to_nat (length - 2)))) by lia.
  cbn [for_loop].
  apply faultsTo_bind_then. wp2. apply faultsTo_bind_then. wp2.
  rewrite (proj2 (Z.eqb_neq _ 0)) by lia. wp2.
  (* the first byte: no packet is left *)
  apply faultsTo_bind_then. wp2.
  eapply runsTo_currentStreamPacket; [exact Hcur | exact Hp |]. wp2.
  unfold OPENBCI_MAX_PACKET_SIZE_BYTES.
  rewrite (proj2 (Z.leb_le 32 _)) by lia. wp2.
  rewrite (proj2 (Z.leb_le _ _)) by lia. wp2.
  (* the second byte: the pointer is null *)
  apply faultsTo_bind_now, faultsTo_bind_now.
  unfold currentStreamPacket.
  apply faultsTo_bind_then. wp2. apply faultsTo_bind_then. wp2.
  apply faultsTo_fault. fields. repeat split.
Qed.

(** * A radio buffer that is full *)


Section Overflow.

Context {header : Header}.


End Overflow.


(** * A command of the PC for the board *)


(** * A message from the PC to the board *)


Section Downlink.

Context {header : Header}.








End Downlink.


(** * Sending a packet again *)





(** * Sample runs *)




Section SampleRuns.

#[local] Existing Instance sampleHeader.


Lemma cleaning_resets_positions_only_witness :
  (exists w',
      bufferCleanSerial 2 deviceWithPage = Done tt w'
      /\ numberOfPacketsToSend (bufferSerial (radio w')) = 0
      /\ numberOfPacketsSent (bufferSerial (radio w')) = 0
      /\ currentPacketBufferSerial (radio w') = Some 0%nat
      /\ previousPacketNumber (radio w') = 0
      /\ forall (j : nat) (p : PacketBuffer),
           packetBuffer (bufferSerial (radio deviceWithPage)) !! j = Some p ->
           packetBuffer (bufferSerial (radio w')) !! j
           = Some (if decide (Z.of_nat j < 2)
                   then {| data := data p; positionRead := 0; positionWrite := 1 |}
                   else p))
  /\ (exists w',
         bufferCleanStreamPackets 2 deviceWithPage = Done tt w'
         /\ numberOfPacketsToSend (bufferStreamPackets (radio w')) = 0
         /\ numberOfPacketsSent (bufferStreamPackets (radio w')) = 0
         /\ currentPacketBufferStreamPacket (radio w') = Some 0%nat
         /\ forall (j : nat) (p : PacketBuffer),
              packetBuffer (bufferStreamPackets (radio deviceWithPage)) !! j = Some p ->
              packetBuffer (bufferStreamPackets (radio w')) !! j
              = Some (if decide (Z.of_nat j < 2)
                      then {| data := data p; positionRead := 0; positionWrite := 0 |}
                      else p)).
Proof.
  apply (cleaning_resets_positions_only deviceWithPage 2); vm_compute; split; discriminate.
Defined.

Lemma fetch_on_empty_port_counts_a_packet_witness :
  exists w',
    bufferSerialFetch cleanHost = Done tt w'
    /\ radio w'
       = set_bufferSerial (set_numberOfPacketsToSend 1 (bufferSerial (radio cleanHost)))
           (radio cleanHost)
    /\ board w' = board cleanHost
    /\ thereIsDataInSerialBuffer w' = Done true w'.
Proof.
  apply (fetch_on_empty_port_counts_a_packet cleanHost); reflexivity.
Defined.









Lemma setChannelNumber_stores_the_clamped_channel_witness :
  exists w',
    setChannelNumber 30 cleanHost = Done true w'
    /\ getChannelNumber w' = Done (Z.min 30 RFDUINOGZLL_CHANNEL_LIMIT_UPPER) w'
    /\ serialOut (board w')
       = serialOut (board cleanHost) ++ [SerialPrint "Channel Number Set$$$"; SerialPrintln]
    /\ radio w' = radio cleanHost.
Proof.
  apply (setChannelNumber_stores_the_clamped_channel cleanHost 30).
  - reflexivity.
  - reflexivity.
  - lia.
  - vm_compute. split; [discriminate | reflexivity].
Defined.




Lemma idle_device_polls_once_per_period_witness :
  exists w1,
    didPicSendDeviceSerialData (wiring := sampleWiring) idleDevice = Done false w1
    /\ radioOut (board w1) = radioOut (board idleDevice) ++ [SendToHost []]
    /\ timeOfLastPoll (radio w1) = millis (board idleDevice)
    /\ didPicSendDeviceSerialData (wiring := sampleWiring) w1 = Done false w1.
Proof.
  apply (idle_device_polls_once_per_period (wiring := sampleWiring) idleDevice).
  - reflexivity.
  - vm_compute. discriminate.
  - vm_compute. reflexivity.
Defined.

Lemma ack_waits_for_a_quiet_serial_port_witness :
  RFduinoGZLL_onReceive 0 0 [] 0 deviceWithPage = Done tt deviceWithPage.
Proof.
  apply (ack_waits_for_a_quiet_serial_port deviceWithPage 0 0).
  - reflexivity.
  - reflexivity.
  - vm_compute. reflexivity.
  - vm_compute. discriminate.
Defined.

Lemma ack_after_the_last_packet_ends_the_page_witness :
  exists w',
    RFduinoGZLL_onReceive 0 0 [] 0 deviceAtEndOfPage = Done tt w'
    /\ board w' = board deviceAtEndOfPage
    /\ numberOfPacketsToSend (bufferSerial (radio w')) = 0
    /\ numberOfPacketsSent (bufferSerial (radio w')) = 0
    /\ currentPacketBufferSerial (radio w') = Some 0%nat
    /\ forall (j : nat) (p : PacketBuffer),
         packetBuffer (bufferSerial (radio deviceAtEndOfPage)) !! j = Some p ->
         packetBuffer (bufferSerial (radio w')) !! j
         = Some (if decide (Z.of_nat j
                            < numberOfPacketsToSend (bufferSerial (radio deviceAtEndOfPage)))
                 then {| data := data p; positionRead := 0; positionWrite := 1 |}
                 else p).
Proof.
  apply (ack_after_the_last_packet_ends_the_page deviceAtEndOfPage 0 0).
  - reflexivity.
  - reflexivity.
  - reflexivity.
  - vm_compute. split; [reflexivity | discriminate].
Defined.

Lemma full_stream_buffer_reads_through_null_witness :
  exists w',
    bufferAddStreamPacket streamPacketA 32 hostWithThreeStreamPackets = Fault w'
    /\ currentPacketBufferStreamPacket (radio w') = None
    /\ numberOfPacketsToSend (bufferStreamPackets (radio w'))
       = numberOfPacketsToSend (bufferStreamPackets (radio hostWithThreeStreamPackets)) + 1
    /\ packetBuffer (bufferStreamPackets (radio w'))
       = packetBuffer (bufferStreamPackets (radio hostWithThreeStreamPackets)).
Proof.
  apply (full_stream_buffer_reads_through_null hostWithThreeStreamPackets streamPacketA 32
           2%nat {| data := streamPacketC; positionRead := 0; positionWrite := 32 |}).
  - reflexivity.
  - vm_compute. reflexivity.
  - cbn. lia.
  - vm_compute. reflexivity.
  - vm_compute. discriminate.
  - lia.
Defined.






End SampleRuns.
